(** * SNS Square QA agent: the browser front end (frontend/script.js)

    A shallow embedding of the script's functions and of its submit handler,
    followed by the properties of the specification that were checked against
    them.

    Conventions of the embedding.
    - A JavaScript string is a Rocq [string] holding its UTF-8 text.  Splitting
      on a comma or a dot, and deleting every character outside [a-z0-9], give
      the same text on UTF-8 bytes as on UTF-16 code units.  [length] and
      indexing count UTF-16 code units, as JavaScript does.
    - A JavaScript number is NaN, an infinity, or a rational: every finite
      double is a rational, and the script only compares numbers and takes a
      minimum, which is exact.  The two zeros are one: the script cannot
      tell them apart.
    - Values are the data a JSON body or an object literal of the script can
      hold.  Property lookup sees the keys of such data; the names that the
      built-in prototypes answer (toString, constructor, ...) are those of
      the class [Prototypes], and a statement about a path of any names is
      made for the names that are not inherited.  The names the handler reads
      are not.
    - The text and the number of a value are those of a value that has a
      primitive ([printable]): an object with a key named toString has none,
      since no JSON body can make it callable, and the statements that
      convert such a value ([textContent =], a template literal) raise a
      TypeError.
    - The built-ins whose definition is the engine's, not the script's, are
      the fields of the class [Engine]: case conversion and trimming beyond
      ASCII, the reading and printing of numbers, the text of a TypeError.
    - Statements run in a monad of state and exceptions over the part of the
      browser the script acts on.  An exception leaves the page as the
      statements before it made it.  The handler is followed through one
      submission, the answer of the transport being given. *)

From Stdlib Require Import String Ascii List ZArith QArith Bool Lia Lqa DecimalString.
Import ListNotations.
Close Scope Q_scope.
Open Scope string_scope.

(* ================================================================= *)
(** ** Text *)

Definition code (c : ascii) : nat := nat_of_ascii c.

Definition in_range (lo hi : nat) (c : ascii) : bool :=
  (lo <=? code c)%nat && (code c <=? hi)%nat.

Definition is_ascii_char (c : ascii) : bool := (code c <? 128)%nat.

Fixpoint is_ascii (s : string) : bool :=
  match s with
  | EmptyString => true
  | String c s' => is_ascii_char c && is_ascii s'
  end.

(** The double quote and the middle dot (U+00B7, two bytes of UTF-8). *)
Definition dquote : string := String (ascii_of_nat 34) "".
Definition middle_dot : string :=
  String (ascii_of_nat 194) (String (ascii_of_nat 183) "").
(** The en dash (U+2013, three bytes of UTF-8), the placeholder of a missing score. *)
Definition en_dash : string :=
  String (ascii_of_nat 226) (String (ascii_of_nat 128) (String (ascii_of_nat 147) "")).

Definition str_empty (s : string) : bool :=
  match s with EmptyString => true | _ => false end.

Fixpoint str_filter (keep : ascii -> bool) (s : string) : string :=
  match s with
  | EmptyString => EmptyString
  | String c s' => if keep c then String c (str_filter keep s') else str_filter keep s'
  end.

Fixpoint str_map (f : ascii -> ascii) (s : string) : string :=
  match s with
  | EmptyString => EmptyString
  | String c s' => String (f c) (str_map f s')
  end.

Fixpoint join (sep : string) (l : list string) : string :=
  match l with
  | [] => ""
  | [x] => x
  | x :: rest => x ++ sep ++ join sep rest
  end.

(** The pieces of a text between its separator characters, in order; never
    the empty list. *)
Fixpoint split_by (is_sep : ascii -> bool) (s : string) : list string :=
  match s with
  | EmptyString => [""]
  | String c s' =>
      if is_sep c then "" :: split_by is_sep s'
      else match split_by is_sep s' with
           | h :: t => String c h :: t
           | [] => [String c ""]
           end
  end.

(** [s.split(sep)] for a one-character separator. *)
Definition str_split (sep : ascii) (s : string) : list string :=
  split_by (Ascii.eqb sep) s.

(** [s.includes(sub)]. *)
Fixpoint prefix_of (p s : string) : bool :=
  match p, s with
  | EmptyString, _ => true
  | String a p', String b s' => Ascii.eqb a b && prefix_of p' s'
  | String _ _, EmptyString => false
  end.

Fixpoint includes (sub s : string) : bool :=
  prefix_of sub s ||
  match s with
  | EmptyString => false
  | String _ s' => includes sub s'
  end.

(** *** ASCII case and white space *)

Definition lower_char (c : ascii) : ascii :=
  if in_range 65 90 c then ascii_of_nat (code c + 32) else c.

Definition ascii_lower (s : string) : string := str_map lower_char s.

(** Tab, line feed, vertical tab, form feed, carriage return, space. *)
Definition is_space (c : ascii) : bool := in_range 9 13 c || (code c =? 32)%nat.

Fixpoint trim_start (s : string) : string :=
  match s with
  | EmptyString => EmptyString
  | String c s' => if is_space c then trim_start s' else s
  end.

Fixpoint trim_end (s : string) : string :=
  match s with
  | EmptyString => EmptyString
  | String c s' =>
      match trim_end s' with
      | EmptyString => if is_space c then EmptyString else String c EmptyString
      | t => String c t
      end
  end.

Definition ascii_trim (s : string) : string := trim_start (trim_end s).

(** *** UTF-16 view of UTF-8 text *)

(** Code units of the character a byte starts: none for a continuation byte,
    two for the lead byte of a four-byte character. *)
Definition units_of_lead (c : ascii) : nat :=
  let n := code c in
  if (n <? 128)%nat then 1
  else if (n <? 192)%nat then 0
  else if (n <? 240)%nat then 1
  else 2.

Fixpoint js_length (s : string) : nat :=
  match s with
  | EmptyString => 0
  | String c s' => units_of_lead c + js_length s'
  end.

Definition starts_with_continuation (s : string) : bool :=
  match s with
  | String c _ => in_range 128 191 c
  | EmptyString => false
  end.

(** The characters of a text, each with its continuation bytes. *)
Fixpoint utf8_chars (s : string) : list string :=
  match s with
  | EmptyString => []
  | String c s' =>
      match utf8_chars s' with
      | h :: t =>
          if starts_with_continuation h then String c h :: t
          else String c "" :: h :: t
      | [] => [String c ""]
      end
  end.

Definition byte_at (s : string) (i : nat) : N :=
  match String.get i s with
  | Some c => N_of_ascii c
  | None => 0%N
  end.

Definition encode3 (u : N) : string :=
  String (ascii_of_N (224 + N.shiftr u 12))
    (String (ascii_of_N (128 + N.land (N.shiftr u 6) 63))
       (String (ascii_of_N (128 + N.land u 63)) "")).

(** The two surrogate halves of a four-byte character, each written as the
    three bytes of its code unit. *)
Definition surrogates (ch : string) : string * string :=
  let cp := (N.shiftl (N.land (byte_at ch 0) 7) 18
             + N.shiftl (N.land (byte_at ch 1) 63) 12
             + N.shiftl (N.land (byte_at ch 2) 63) 6
             + N.land (byte_at ch 3) 63)%N in
  let v := (cp - 65536)%N in
  (encode3 (55296 + N.shiftr v 10), encode3 (56320 + N.land v 1023)).

Fixpoint unit_at (chars : list string) (i : nat) : option string :=
  match chars with
  | [] => None
  | ch :: rest =>
      match js_length ch, i with
      | 2, 0 => Some (fst (surrogates ch))
      | 2, 1 => Some (snd (surrogates ch))
      | 2, S (S j) => unit_at rest j
      | 0, _ => unit_at rest i
      | _, 0 => Some ch
      | _, S j => unit_at rest j
      end
  end.

(** [s[i]]: the one-unit string at index [i], if any. *)
Definition str_index (s : string) (i : nat) : option string :=
  unit_at (utf8_chars s) i.

(** *** Decimal indices and integers *)

Definition is_digit (c : ascii) : bool := in_range 48 57 c.

Fixpoint all_digits (s : string) : bool :=
  match s with
  | EmptyString => true
  | String c s' => is_digit c && all_digits s'
  end.

Fixpoint digits_value (acc : N) (s : string) : N :=
  match s with
  | EmptyString => acc
  | String c s' => digits_value (10 * acc + (N_of_ascii c - 48))%N s'
  end.

(** A property key that is a canonical index: decimal digits with no leading
    zero (["0"] itself apart). *)
Definition parse_index (k : string) : option N :=
  match k with
  | EmptyString => None
  | String c rest =>
      if all_digits k && (negb (Ascii.eqb c "0") || str_empty rest)
      then Some (digits_value 0 k)
      else None
  end.

Definition Z_to_string (z : Z) : string := NilZero.string_of_int (Z.to_int z).

(* ================================================================= *)
(** ** Numbers *)

Inductive number : Type :=
| NaN
| Infinity (negative : bool)
| Fin (q : Q).

(** The comparison [a < b] of the language: undefined ([None]) when an operand
    is NaN. *)
Definition IsLessThan (a b : number) : option bool :=
  match a, b with
  | NaN, _ | _, NaN => None
  | Infinity n1, Infinity n2 => Some (n1 && negb n2)
  | Infinity n1, Fin _ => Some n1
  | Fin _, Infinity n2 => Some (negb n2)
  | Fin p, Fin q => Some (negb (Qle_bool q p))
  end.

(** [a >= b] holds when [a < b] is false; an undefined comparison is false. *)
Definition num_ge (a b : number) : bool :=
  match IsLessThan a b with
  | Some false => true
  | _ => false
  end.

(** [Math.min(a, b)]. *)
Definition num_min (a b : number) : number :=
  match IsLessThan a b with
  | None => NaN
  | Some true => a
  | Some false => b
  end.

Definition num_truthy (n : number) : bool :=
  match n with
  | NaN => false
  | Infinity _ => true
  | Fin q => negb (Qeq_bool q 0)
  end.

Definition is_integer (q : Q) : bool := (Qnum q mod Zpos (Qden q) =? 0)%Z.

Definition num_of_nat (n : nat) : number := Fin (inject_Z (Z.of_nat n)).

(* ================================================================= *)
(** ** Values *)

(** The data a JSON body or an object literal holds.  An object keeps its own
    properties in enumeration order, each key once. *)
#[warnings="-register-all"]
Inductive value : Type :=
| VUndefined
| VNull
| VBool (b : bool)
| VNum (n : number)
| VStr (s : string)
| VArr (items : list value)
| VObj (props : list (string * value)).

Definition nullish (v : value) : bool :=
  match v with
  | VUndefined | VNull => true
  | _ => false
  end.

Definition truthy (v : value) : bool :=
  match v with
  | VUndefined | VNull => false
  | VBool b => b
  | VNum n => num_truthy n
  | VStr s => negb (str_empty s)
  | VArr _ | VObj _ => true
  end.

(** [typeof v === 'object' && v !== null]. *)
Definition is_object (v : value) : bool :=
  match v with
  | VArr _ | VObj _ => true
  | _ => false
  end.

(** The values that have a primitive: converting an object to a text or to a
    number calls its [toString], and that of the data of a JSON body is the
    built-in one unless the object has a key of that name, whose value no JSON
    body can make callable; the conversion then raises a TypeError.  An array
    prints its entries, so it has a primitive when they have. *)
Fixpoint printable (v : value) : bool :=
  match v with
  | VObj props => negb (existsb (fun kv => String.eqb (fst kv) "toString") props)
  | VArr items => forallb printable items
  | _ => true
  end.

(** [a ?? b] and [a || b]. *)
Definition coalesce (a b : value) : value := if nullish a then b else a.
Definition or_else (a b : value) : value := if truthy a then a else b.

(** A parameter with a default: the default stands in for a missing or
    undefined argument. *)
Definition default_param (arg dflt : value) : value :=
  match arg with
  | VUndefined => dflt
  | _ => arg
  end.

Fixpoint lookup (k : string) (props : list (string * value)) : value :=
  match props with
  | [] => VUndefined
  | (k', v) :: rest => if String.eqb k k' then v else lookup k rest
  end.

(** [v[k]] on a value that is neither null nor undefined: the own property,
    or undefined. *)
Definition getProp (v : value) (k : string) : value :=
  match v with
  | VObj props => lookup k props
  | VArr items =>
      if String.eqb k "length" then VNum (num_of_nat (length items))
      else match parse_index k with
           | Some i =>
               if (i <? N.of_nat (length items))%N
               then nth (N.to_nat i) items VUndefined
               else VUndefined
           | None => VUndefined
           end
  | VStr s =>
      if String.eqb k "length" then VNum (num_of_nat (js_length s))
      else match parse_index k with
           | Some i =>
               if (i <? N.of_nat (js_length s))%N
               then match str_index s (N.to_nat i) with
                    | Some ch => VStr ch
                    | None => VUndefined
                    end
               else VUndefined
           | None => VUndefined
           end
  | _ => VUndefined
  end.

(* ================================================================= *)
(** ** The engine *)

(** Built-ins of the JavaScript engine that the script calls and does not
    define.  [fractionToString] prints the numbers that are not integers of
    absolute value at most 2^53 (up to there the digits of a number are those
    of the integer; beyond, the engine picks the shortest digits that read
    back as the same double); [typeErrorMessage] is the text of the TypeError
    raised at a place.
    The laws say what the case and white-space functions do on ASCII text. *)
Class Engine : Type := {
  toLowerCase : string -> string;
  trim : string -> string;
  StringToNumber : string -> number;
  fractionToString : Q -> string;
  typeErrorMessage : string -> string;
  toLowerCase_ascii : forall s, is_ascii s = true -> toLowerCase s = ascii_lower s;
  trim_ascii : forall s, is_ascii s = true -> trim s = ascii_trim s;
  trim_trim : forall s, trim (trim s) = trim s
}.

(** *** Exceptions *)

Record exn : Type := { exn_name : string; message : string }.

Inductive Outcome (A : Type) : Type :=
| Ok (a : A)
| Throw (e : exn).
Arguments Ok {A} a.
Arguments Throw {A} e.

Definition obind {A B : Type} (m : Outcome A) (k : A -> Outcome B) : Outcome B :=
  match m with
  | Ok a => k a
  | Throw e => Throw e
  end.

Notation "'let!' x ':=' m 'in' k" := (obind m (fun x => k))
  (at level 10, x name, m at level 100, k at level 200).

(** [try { body } catch (e) { handler }]. *)
Definition try_catch {A : Type} (body : Outcome A) (handler : exn -> Outcome A) : Outcome A :=
  match body with
  | Ok a => Ok a
  | Throw e => handler e
  end.

Section Script.
Context {E : Engine}.

Definition TypeError (place : string) : exn :=
  {| exn_name := "TypeError"; message := typeErrorMessage place |}.

(** [v.k] and [v[k]]: a TypeError on null and undefined. *)
Definition get (v : value) (k : string) : Outcome value :=
  if nullish v then Throw (TypeError k) else Ok (getProp v k).

(** *** Conversions *)

(** [ToString] and [ToNumber] give the text and the number of a value that
    has a primitive ([printable]); on the others the conversion of the
    language raises, which the statements that convert say. *)

Definition NumberToString (n : number) : string :=
  match n with
  | NaN => "NaN"
  | Infinity false => "Infinity"
  | Infinity true => "-Infinity"
  | Fin q =>
      let z := (Qnum q / Zpos (Qden q))%Z in
      if is_integer q && (Z.abs z <=? 2 ^ 53)%Z then Z_to_string z
      else fractionToString q
  end.

Fixpoint ToString (v : value) : string :=
  match v with
  | VUndefined => "undefined"
  | VNull => "null"
  | VBool b => if b then "true" else "false"
  | VNum n => NumberToString n
  | VStr s => s
  | VArr items =>
      join "," (map (fun x => if nullish x then "" else ToString x) items)
  | VObj _ => "[object Object]"
  end.

Definition ToNumber (v : value) : number :=
  match v with
  | VUndefined => NaN
  | VNull => Fin 0
  | VBool b => Fin (if b then 1 else 0)
  | VNum n => n
  | VStr s => StringToNumber s
  | VArr _ | VObj _ => StringToNumber (ToString v)
  end.

(** [v >= n] against a number. *)
Definition value_ge (v : value) (n : number) : bool := num_ge (ToNumber v) n.

(** *** JSON.stringify *)

Definition hex_digit (n : nat) : ascii :=
  if (n <? 10)%nat then ascii_of_nat (48 + n) else ascii_of_nat (87 + n).

Definition escape_char (c : ascii) : string :=
  let n := code c in
  if (n =? 34)%nat then "\" ++ dquote
  else if (n =? 92)%nat then "\\"
  else if (n =? 8)%nat then "\b"
  else if (n =? 9)%nat then "\t"
  else if (n =? 10)%nat then "\n"
  else if (n =? 12)%nat then "\f"
  else if (n =? 13)%nat then "\r"
  else if (n <? 32)%nat
       then "\u00" ++ String (hex_digit (n / 16)) (String (hex_digit (n mod 16)) "")
  else String c "".

Fixpoint escape (s : string) : string :=
  match s with
  | EmptyString => ""
  | String c s' => escape_char c ++ escape s'
  end.

Definition quote (s : string) : string := dquote ++ escape s ++ dquote.

(** The text of a value, or [None] where JSON.stringify gives undefined. *)
Fixpoint stringify (v : value) : option string :=
  match v with
  | VUndefined => None
  | VNull => Some "null"
  | VBool b => Some (if b then "true" else "false")
  | VNum n =>
      Some match n with
           | Fin _ => NumberToString n
           | _ => "null"
           end
  | VStr s => Some (quote s)
  | VArr items =>
      Some ("[" ++ join ","
              (map (fun x => match stringify x with
                             | Some t => t
                             | None => "null"
                             end) items) ++ "]")
  | VObj props =>
      Some ("{" ++ join ","
              (flat_map (fun kv => match kv with
                                   | (k, x) => match stringify x with
                                               | Some t => [quote k ++ ":" ++ t]
                                               | None => []
                                               end
                                   end) props) ++ "}")
  end.

Definition JSON_stringify (v : value) : value :=
  match stringify v with
  | Some t => VStr t
  | None => VUndefined
  end.

(* ================================================================= *)
(** ** The functions of the script *)

(** [path.split(".")]: only a string has the method. *)
Definition split_method (path : value) (sep : ascii) : Outcome (list string) :=
  match path with
  | VStr s => Ok (str_split sep s)
  | _ => Throw (TypeError "split")
  end.

(** The callback of the reduction: [acc ? acc[key] : undefined].  A truthy
    accumulator is neither null nor undefined, so the lookup cannot raise. *)
Definition safeGet_step (acc : value) (key : string) : value :=
  if truthy acc then getProp acc key else VUndefined.

Definition safeGet (obj path fallback : value) : Outcome value :=
  let fallback := default_param fallback VNull in
  try_catch
    (let! keys := split_method path "." in
     Ok (coalesce (fold_left safeGet_step keys obj) fallback))
    (fun _ => Ok fallback).

Definition MANDATORY_HASHTAGS : list string :=
  ["#snssquare"; "#snsihub"; "#snsdesignthinking"; "#designthinkers"].

Definition getScoreClass (score : value) : string :=
  if value_ge score (Fin 90) then "excellent"
  else if value_ge score (Fin 75) then "good"
  else if value_ge score (Fin 60) then "average"
  else "poor".

(** The class [a-z0-9] of the regular expression, and
    [s.replace(/[^a-z0-9]/g, '')]. *)
Definition class_az09 (c : ascii) : bool := in_range 97 122 c || in_range 48 57 c.
Definition replace_non_az09 (s : string) : string := str_filter class_az09 s.

(** [v.toLowerCase()]: only a string has the method. *)
Definition toLowerCase_method (v : value) : Outcome string :=
  match v with
  | VStr s => Ok (toLowerCase s)
  | _ => Throw (TypeError "toLowerCase")
  end.

Definition isMandatoryHashtag (tag : value) : Outcome bool :=
  let! lowered := toLowerCase_method tag in
  let normalized := replace_non_az09 lowered in
  Ok (existsb
        (fun mandatory =>
           String.eqb (replace_non_az09 (toLowerCase mandatory)) normalized)
        MANDATORY_HASHTAGS).

End Script.

(* ================================================================= *)
(** ** The page *)

(** What an element holds: text written through [textContent], markup written
    through [innerHTML] (kept as written), and elements made by
    [document.createElement] and appended, with their class and text. *)
Inductive Child : Type :=
| TextNode (text : string)
| Markup (html : string)
| Created (tag cls text : string).

Record Element : Type := {
  children : list Child;
  className : string
}.

Definition with_children (c : list Child) (e : Element) : Element :=
  {| children := c; className := className e |}.

Definition with_className (c : string) (e : Element) : Element :=
  {| children := children e; className := c |}.

(** The tokens of a class attribute: split on ASCII white space, each once. *)
Definition is_class_space (c : ascii) : bool :=
  match code c with
  | 9 | 10 | 12 | 13 | 32 => true
  | _ => false
  end.

Arguments is_class_space : simpl never.

Fixpoint dedupe (l : list string) : list string :=
  match l with
  | [] => []
  | x :: rest => x :: filter (fun y => negb (String.eqb y x)) (dedupe rest)
  end.

Definition tokens (cls : string) : list string :=
  dedupe (filter (fun t => negb (str_empty t)) (split_by is_class_space cls)).

Definition has_token (tok : string) (l : list string) : bool :=
  existsb (String.eqb tok) l.

(** [e.classList.contains(tok)], [e.classList.add(tok)] and
    [e.classList.remove(tok)]. *)
Definition classList_contains (tok : string) (e : Element) : bool :=
  has_token tok (tokens (className e)).

Definition classList_add (tok : string) (e : Element) : Element :=
  let ts := tokens (className e) in
  with_className (join " " (if has_token tok ts then ts else ts ++ [tok])) e.

Definition classList_remove (tok : string) (e : Element) : Element :=
  with_className
    (join " " (filter (fun t => negb (String.eqb t tok)) (tokens (className e)))) e.

Record Request : Type := {
  url : string;
  method : string;
  headers : list (string * string);
  body : value
}.

(** What the transport answers: a rejected promise, or a response with its
    [ok] flag and what [res.json()] gives. *)
Inductive Body : Type :=
| JsonBody (data : value)
| BadBody (e : exn).

Inductive FetchResult : Type :=
| Rejected (e : exn)
| Response (ok : bool) (body : Body).

(** The part of the browser the script acts on.  The elements the script binds
    by id when it loads are taken to be in the page (index.html is not among
    the sources); the element of class score-section is looked up by the
    handler, may be missing, and is taken to be none of those.  A timer is the
    delay, the id of the element and the width its callback will write. *)
Record World : Type := {
  dom : string -> Element;
  score_section : option Element;
  timers : list (nat * string * string);
  console : list exn;
  fetches : list Request
}.

Definition with_dom (d : string -> Element) (w : World) : World :=
  {| dom := d; score_section := score_section w; timers := timers w;
     console := console w; fetches := fetches w |}.

Definition with_score_section (s : option Element) (w : World) : World :=
  {| dom := dom w; score_section := s; timers := timers w;
     console := console w; fetches := fetches w |}.

Definition with_timers (t : list (nat * string * string)) (w : World) : World :=
  {| dom := dom w; score_section := score_section w; timers := t;
     console := console w; fetches := fetches w |}.

Definition with_console (c : list exn) (w : World) : World :=
  {| dom := dom w; score_section := score_section w; timers := timers w;
     console := c; fetches := fetches w |}.

Definition with_fetches (f : list Request) (w : World) : World :=
  {| dom := dom w; score_section := score_section w; timers := timers w;
     console := console w; fetches := f |}.

Definition upd (id : string) (f : Element -> Element) (d : string -> Element)
  : string -> Element :=
  fun i => if String.eqb i id then f (d i) else d i.

(** The values of the form's fields and the host name of the page. *)
Record Inputs : Type := {
  hostname : string;
  platform : string;
  title : string;
  content : string;
  hashtags : string;
  geo : string;
  niche : string;
  target_audience : string
}.

(** *** Statements: state and exceptions *)

Definition M (A : Type) : Type := World -> Outcome A * World.

Definition ret {A : Type} (a : A) : M A := fun w => (Ok a, w).

Definition throw {A : Type} (e : exn) : M A := fun w => (Throw e, w).

Definition bind {A B : Type} (m : M A) (k : A -> M B) : M B :=
  fun w =>
    match m w with
    | (Ok a, w') => k a w'
    | (Throw e, w') => (Throw e, w')
    end.

Definition lift {A : Type} (o : Outcome A) : M A := fun w => (o, w).

Definition modify (f : World -> World) : M unit := fun w => (Ok tt, f w).

Notation "x <- m ;; k" := (bind m (fun x => k))
  (at level 61, m at next level, right associativity).
Notation "m ;; k" := (bind m (fun _ => k))
  (at level 61, right associativity).

(** [try { body } catch (err) { handler } finally { final }]. *)
Definition try_catch_finally (body : M unit) (handler : exn -> M unit) (final : M unit)
  : M unit :=
  fun w =>
    match body w with
    | (Ok _, w1) => final w1
    | (Throw e, w1) =>
        match handler e w1 with
        | (Ok _, w2) => final w2
        | (Throw e', w2) =>
            match final w2 with
            | (Ok _, w3) => (Throw e', w3)
            | (Throw e'', w3) => (Throw e'', w3)
            end
        end
    end.

Fixpoint for_each {A : Type} (f : A -> M unit) (l : list A) : M unit :=
  match l with
  | [] => ret tt
  | x :: rest => f x ;; for_each f rest
  end.

Definition on_element (id : string) (f : Element -> Element) : M unit :=
  modify (fun w => with_dom (upd id f (dom w)) w).

Section Handler.
Context {E : Engine}.

(** The string a DOM attribute of type [DOMString?] takes from a value. *)
Definition domString (v : value) : string :=
  if nullish v then "" else ToString v.

Definition text_children (s : string) : list Child :=
  if str_empty s then [] else [TextNode s].

Definition markup_children (s : string) : list Child :=
  if str_empty s then [] else [Markup s].

(** The text of a value in a template literal: a TypeError on a value that
    has no primitive. *)
Definition template (v : value) : Outcome string :=
  if printable v then Ok (ToString v) else Throw (TypeError "ToPrimitive").

(** [el.textContent = v], [el.innerHTML = html], [el.className = cls] and
    [el.appendChild(c)], on the element of id [id].  The first converts [v]
    to a string and raises where that does. *)
Definition set_textContent (id : string) (v : value) : M unit :=
  if printable v then on_element id (with_children (text_children (domString v)))
  else throw (TypeError "ToPrimitive").

Definition set_innerHTML (id : string) (html : string) : M unit :=
  on_element id (with_children (markup_children html)).

Definition set_className (id : string) (cls : string) : M unit :=
  on_element id (with_className cls).

Definition appendChild (id : string) (c : Child) : M unit :=
  on_element id (fun e => with_children (children e ++ [c]) e).

(** [xs.forEach(f)]: only an array has the method. *)
Definition forEach (xs : value) (f : value -> M unit) : M unit :=
  match xs with
  | VArr items => for_each f items
  | _ => throw (TypeError "forEach")
  end.

Definition setLoading (isLoading : bool) : M unit :=
  if isLoading then
    set_textContent "btn-text" (VStr "Analyzing...") ;;
    on_element "btn-spinner" (classList_remove "hidden")
  else
    set_textContent "btn-text" (VStr "Run QA") ;;
    on_element "btn-spinner" (classList_add "hidden").

Definition muted (tag text : string) : string :=
  "<" ++ tag ++ " class=" ++ dquote ++ "muted" ++ dquote ++ ">" ++ text
  ++ "</" ++ tag ++ ">".

(** The body of the callback of [items.forEach] in renderChips: the chip made
    for one item. *)
Definition chip (trending : bool) (item : value) : Outcome Child :=
  let! parts :=
    if is_object item then
      let label := or_else (getProp item "tag") (JSON_stringify item) in
      let! isMandatory := isMandatoryHashtag label in
      if truthy (getProp item "competition_level") then
        let! level := toLowerCase_method (getProp item "competition_level") in
        Ok (VStr (ToString label ++ " " ++ middle_dot ++ " "
                  ++ ToString (getProp item "competition_level")),
            " competition-" ++ level, isMandatory)
      else Ok (label, "", isMandatory)
    else
      let! isMandatory := isMandatoryHashtag item in
      Ok (item, "", isMandatory) in
  let '(label, competitionClass, isMandatory) := parts in
  let cls := "chip" ++ (if isMandatory then " mandatory"
                        else if trending then " trending" else "")
             ++ competitionClass in
  Ok (Created "span" cls (domString label)).

Definition renderChips (container : string) (items : value) (trending : bool) : M unit :=
  set_innerHTML container "" ;;
  if negb (truthy items) || negb (truthy (getProp items "length")) then
    set_innerHTML container (muted "span" "None")
  else
    forEach items (fun item =>
      c <- lift (chip trending item) ;;
      appendChild container c).

(** [const li = document.createElement("li"); li.textContent = v]. *)
Definition list_item (v : value) : Outcome Child :=
  if printable v then Ok (Created "li" "" (domString v))
  else Throw (TypeError "ToPrimitive").

(** The text given to the list item of one issue. *)
Definition issue_text (issue : value) : value :=
  if is_object issue then
    or_else (getProp issue "issue")
      (or_else (getProp issue "message") (JSON_stringify issue))
  else issue.

(** One score of the breakdown: its text, then its class. *)
Definition show_score (id : string) (score : value) : M unit :=
  set_textContent id (coalesce score (VStr en_dash)) ;;
  set_className id ("score-value " ++ getScoreClass (coalesce score (VNum (Fin 0)))).

(** [const result = data.raw_json || data]. *)
Definition select_result (data : value) : Outcome value :=
  let! raw := get data "raw_json" in
  Ok (or_else raw data).

(** The blocks of the handler from "Scores" to "Animate score bar". *)
Definition show_scores (result : value) : M unit :=
  overall <- lift (get result "overall_score") ;;
  let overallScore := coalesce overall (VNum (Fin 0)) in
  set_textContent "overall-score" overallScore ;;
  set_className "overall-score" ("score-big " ++ getScoreClass overallScore) ;;
  modify (fun w =>
    match score_section w with
    | Some scoreSection =>
        with_score_section
          (Some (with_className ("score-section " ++ getScoreClass overallScore)
                   scoreSection)) w
    | None => w
    end) ;;
  sb <- lift (get result "scores_breakdown") ;;
  let breakdown := or_else sb (VObj []) in
  quality <- lift (get breakdown "quality_score") ;;
  show_score "score-quality" quality ;;
  seo <- lift (get breakdown "seo_score") ;;
  show_score "score-seo" seo ;;
  engagement <- lift (get breakdown "engagement_score") ;;
  show_score "score-engagement" engagement ;;
  structure <- lift (get breakdown "structure_score") ;;
  show_score "score-structure" structure ;;
  modify (fun w =>
    with_timers
      (timers w ++
       [(100, "score-bar-fill",
         NumberToString (num_min (ToNumber overallScore) (Fin 100)) ++ "%")]) w).

(** The blocks of the handler headed "Issues", "Content checks", "Hashtags",
    "Optimized content" and "CTAs". *)
Definition show_issues (result : value) : M unit :=
  found <- lift (get result "issues_found") ;;
  let issues := or_else found (VArr []) in
  set_innerHTML "issues-list" "" ;;
  n <- lift (get issues "length") ;;
  if negb (truthy n) then
    set_innerHTML "issues-list" (muted "li" "No major issues found.")
  else
    forEach issues (fun issue =>
      li <- lift (list_item (issue_text issue)) ;;
      appendChild "issues-list" li).

Definition show_checks (result : value) : M unit :=
  cc <- lift (get result "content_checks") ;;
  let checks := or_else cc (VObj []) in
  grammar <- lift (get checks "grammar_summary") ;;
  grammarText <- lift (template (or_else grammar (VStr "N/A"))) ;;
  set_textContent "grammar-summary" (VStr ("Grammar: " ++ grammarText)) ;;
  tone <- lift (get checks "tone_summary") ;;
  toneText <- lift (template (or_else tone (VStr "N/A"))) ;;
  set_textContent "tone-summary" (VStr ("Tone: " ++ toneText)) ;;
  cta <- lift (get checks "cta_status") ;;
  ctaText <- lift (template (or_else cta (VStr "N/A"))) ;;
  set_textContent "cta-status" (VStr ("CTA: " ++ ctaText)).

Definition show_hashtags (result : value) : M unit :=
  ht <- lift (get result "hashtags") ;;
  let tags := or_else ht (VObj []) in
  finalPack <- lift (safeGet result (VStr "final_output.final_hashtag_pack") (VArr [])) ;;
  renderChips "tags-final" finalPack false ;;
  trending <- lift (get tags "trending") ;;
  renderChips "tags-trending" (or_else trending (VArr [])) true.

Definition show_optimized (result : value) : M unit :=
  fo <- lift (get result "final_output") ;;
  let finalOut := or_else fo (VObj []) in
  ot <- lift (get finalOut "optimized_title") ;;
  set_textContent "optimized-title" (or_else ot (VStr "")) ;;
  oc <- lift (get finalOut "optimized_content") ;;
  set_textContent "optimized-content" (or_else oc (VStr "")).

Definition show_ctas (result : value) : M unit :=
  imp <- lift (get result "improvements") ;;
  let improvements := or_else imp (VObj []) in
  cv <- lift (get improvements "cta_variants") ;;
  let ctas := or_else cv (VArr []) in
  set_innerHTML "cta-list" "" ;;
  m <- lift (get ctas "length") ;;
  if negb (truthy m) then
    set_innerHTML "cta-list" (muted "li" "No CTA variants returned.")
  else
    forEach ctas (fun cta =>
      li <- lift (list_item cta) ;;
      appendChild "cta-list" li).

(** The statements that follow [const result = data.raw_json || data]. *)
Definition show_result (result : value) : M unit :=
  on_element "result-empty" (classList_add "hidden") ;;
  on_element "result-content" (classList_remove "hidden") ;;
  show_scores result ;;
  show_issues result ;;
  show_checks result ;;
  show_hashtags result ;;
  show_optimized result ;;
  show_ctas result.

(** The [try] block from [const data = await res.json()] on: what the handler
    does with the body of a successful response. *)
Definition show_response (data : value) : M unit :=
  result <- lift (select_result data) ;;
  show_result result.

Definition API_BASE (host : string) : string :=
  if String.eqb host "localhost" || String.eqb host "127.0.0.1"
  then "http://localhost:8000"
  else "".

(** The hashtags of the request, from the trimmed text of the field. *)
Definition split_hashtags (hashtagsRaw : string) : list string :=
  if (0 <? js_length hashtagsRaw)%nat
  then filter (fun s => negb (str_empty s)) (map trim (str_split "," hashtagsRaw))
  else [].

Definition or_null (s : string) : value := or_else (VStr s) VNull.

Definition build_payload (inp : Inputs) : value :=
  VObj [("platform", VStr (platform inp));
        ("title", or_null (trim (title inp)));
        ("content", VStr (trim (content inp)));
        ("hashtags", VArr (map VStr (split_hashtags (trim (hashtags inp)))));
        ("geo", or_null (trim (geo inp)));
        ("niche", or_null (trim (niche inp)));
        ("target_audience", or_null (trim (target_audience inp)))].

(** [await fetch(url, options)]: the call is recorded, and the transport
    answers. *)
Definition fetch (net : Request -> FetchResult) (req : Request) : M (bool * Body) :=
  fun w =>
    let w' := with_fetches (req :: fetches w) w in
    match net req with
    | Rejected e => (Throw e, w')
    | Response ok b => (Ok (ok, b), w')
    end.

(** The request of the call of [fetch]. *)
Definition analyze_request (api_base : string) (payload : value) : Request :=
  {| url := api_base ++ "/analyze";
     method := "POST";
     headers := [("Content-Type", "application/json")];
     body := JSON_stringify payload |}.

(** [new Error(msg)], for a message that has a primitive: either way the
    statement [throw new Error(msg)] raises. *)
Definition new_Error (msg : value) : exn :=
  {| exn_name := "Error"; message := ToString msg |}.

(** The listener of the form's submit event, for one submission: [net] is what
    the transport answers to the request.  ([e.preventDefault()] acts on the
    event alone and has no counterpart here.) *)
Definition submit (net : Request -> FetchResult) (inp : Inputs) : M unit :=
  on_element "error-box" (classList_add "hidden") ;;
  set_textContent "error-box" (VStr "") ;;
  let content := trim (content inp) in
  if str_empty content then
    set_textContent "error-box" (VStr "Please paste some content to analyze.") ;;
    on_element "error-box" (classList_remove "hidden")
  else
    let payload := build_payload inp in
    setLoading true ;;
    try_catch_finally
      (res <- fetch net (analyze_request (API_BASE (hostname inp)) payload) ;;
       let '(ok, b) := res in
       if negb ok then
         let errData := match b with
                        | JsonBody d => d
                        | BadBody _ => VObj []
                        end in
         detail <- lift (get errData "detail") ;;
         throw (new_Error (or_else detail (VStr "Server error")))
       else
         data <- lift (match b with
                       | JsonBody d => Ok d
                       | BadBody e => Throw e
                       end) ;;
         show_response data)
      (fun err =>
         modify (fun w => with_console (console w ++ [err]) w) ;;
         set_textContent "error-box"
           (or_else (VStr (message err)) (VStr "Something went wrong.")) ;;
         on_element "error-box" (classList_remove "hidden"))
      (setLoading false).

End Handler.

(* ================================================================= *)
(** ** The specification's notions *)

(** A property can be read from every value but null and undefined. *)
Definition present (v : value) : bool := negb (nullish v).

(** The value at the end of a list of keys, reading a property only from a
    value that [ok] accepts: with [present], the path as the language follows
    it; with [truthy], the path as [safeGet] follows it. *)
Fixpoint follow (ok : value -> bool) (v : value) (keys : list string) : option value :=
  match keys with
  | [] => Some v
  | k :: rest => if ok v then follow ok (getProp v k) rest else None
  end.

(** The names that the built-in prototypes of objects, arrays, texts, numbers
    and booleans answer in the current standard: a lookup of one of them
    finds a built-in when the value has no key of that name. *)
Definition BUILTIN_NAMES : list string :=
  ["constructor"; "toString"; "valueOf"; "toLocaleString"; "hasOwnProperty";
   "isPrototypeOf"; "propertyIsEnumerable"; "__proto__";
   "__defineGetter__"; "__defineSetter__"; "__lookupGetter__"; "__lookupSetter__";
   "at"; "concat"; "copyWithin"; "entries"; "every"; "fill"; "filter"; "find";
   "findIndex"; "findLast"; "findLastIndex"; "flat"; "flatMap"; "forEach";
   "includes"; "indexOf"; "join"; "keys"; "lastIndexOf"; "map"; "pop"; "push";
   "reduce"; "reduceRight"; "reverse"; "shift"; "slice"; "some"; "sort"; "splice";
   "toReversed"; "toSorted"; "toSpliced"; "unshift"; "values"; "with";
   "anchor"; "big"; "blink"; "bold"; "charAt"; "charCodeAt"; "codePointAt";
   "endsWith"; "fixed"; "fontcolor"; "fontsize"; "isWellFormed"; "italics"; "link";
   "localeCompare"; "match"; "matchAll"; "normalize"; "padEnd"; "padStart"; "repeat";
   "replace"; "replaceAll"; "search"; "small"; "split"; "startsWith"; "strike"; "sub";
   "substr"; "substring"; "sup"; "toLocaleLowerCase"; "toLocaleUpperCase";
   "toLowerCase"; "toUpperCase"; "toWellFormed"; "trim"; "trimEnd"; "trimLeft";
   "trimRight"; "trimStart"; "toExponential"; "toFixed"; "toPrecision"].

(** What the prototype chain adds to the keys of the data.  [inherited] holds
    of every name that a built-in prototype of the engine answers, those of
    the standard among them.  [getProp] reads the keys of the data alone, so
    it is the lookup of the language on the values that have the key and on
    the names that are not inherited. *)
Class Prototypes : Type := {
  inherited : string -> bool;
  inherited_builtin : forall k, In k BUILTIN_NAMES -> inherited k = true
}.

Definition is_lower_letter (c : ascii) : bool := in_range 97 122 c.

Fixpoint str_all (p : ascii -> bool) (s : string) : bool :=
  match s with
  | EmptyString => true
  | String c s' => p c && str_all p s'
  end.

(** A text with no white space of a class attribute in it. *)
Definition spaceless (t : string) : bool :=
  str_all (fun c => negb (is_class_space c)) t.

(** The element is hidden by the style sheet's class. *)
Definition is_hidden (e : Element) : bool := classList_contains "hidden" e.

(** A statement leaves the element of id [id] as it was, whatever its
    outcome. *)
Definition keeps {A : Type} (id : string) (m : M A) : Prop :=
  forall w, dom (snd (m w)) id = dom w id.

(** A statement that ends normally on every page. *)
Definition succeeds (m : M unit) : Prop := forall w, fst (m w) = Ok tt.

(** The elements of the score breakdown and the fields they show. *)
Definition BREAKDOWN : list (string * string) :=
  [("score-quality", "quality_score"); ("score-seo", "seo_score");
   ("score-engagement", "engagement_score"); ("score-structure", "structure_score")].

Definition BANDS : list string := ["poor"; "average"; "good"; "excellent"].

(** The scores of a result can be printed: the overall score and the four of
    the breakdown have a primitive. *)
Definition scores_printable (result : value) : bool :=
  printable (getProp result "overall_score") &&
  forallb (fun row =>
             printable (getProp (or_else (getProp result "scores_breakdown") (VObj []))
                          (snd row)))
    BREAKDOWN.

(** The calls of [fetch] a statement makes, the latest first. *)
Definition sends {A : Type} (reqs : list Request) (m : M A) : Prop :=
  forall w, fetches (snd (m w)) = (reqs ++ fetches w)%list.

Section Notions.
Context {E : Engine}.

(** The normalized form of a tag in the specification's words: lowercased,
    with every character that is not a lowercase letter or a digit removed. *)
Definition normalize (tag : string) : string :=
  str_filter (fun c => is_lower_letter c || is_digit c) (toLowerCase tag).

(** The element that [show_score] leaves. *)
Definition score_element (score : value) : Element :=
  {| children := text_children (domString (coalesce score (VStr en_dash)));
     className := "score-value " ++ getScoreClass (coalesce score (VNum (Fin 0))) |}.

End Notions.

(** *** Pages, payloads and a form for the closed instances *)

(** A page whose elements are all empty. *)
Definition blank_page : World :=
  {| dom := fun _ => {| children := []; className := "" |};
     score_section := None;
     timers := [];
     console := [];
     fetches := [] |}.

Definition nested_c0 : value :=
  VObj [("a", VObj [("b", VObj [("c", VNum (Fin 0))])])].

Definition wrapped_payload : value :=
  VObj [("raw_json", VObj [("overall_score", VNum (Fin 82))]);
        ("overall_score", VNum (Fin 10))].

Definition zero_quality : value :=
  VObj [("scores_breakdown", VObj [("quality_score", VNum (Fin 0))])].

Definition two_issues : value :=
  VObj [("issues_found", VArr [VStr "plain"; VObj [("message", VStr "y")]])].

Definition blank_form : Inputs :=
  {| hostname := "localhost"; platform := "instagram"; title := "";
     content := "   "; hashtags := "#SNS Square, #random";
     geo := ""; niche := ""; target_audience := "" |}.

(** *** Notions of the further properties *)

(** The rank of a band, poor first. *)
Definition band_rank (cls : string) : nat :=
  if String.eqb cls "excellent" then 3
  else if String.eqb cls "good" then 2
  else if String.eqb cls "average" then 1
  else 0.

Definition is_string (v : value) : bool :=
  match v with
  | VStr _ => true
  | _ => false
  end.

Definition is_array (v : value) : bool :=
  match v with
  | VArr _ => true
  | _ => false
  end.

(** A statement leaves a part of the browser as it was, whatever its outcome. *)
Definition leaves {A B : Type} (part : World -> B) (m : M A) : Prop :=
  forall w, part (snd (m w)) = part w.

(** The text the error box shows for an exception. *)
Definition error_text (e : exn) : string :=
  if str_empty (message e) then "Something went wrong." else message e.

(** The elements of the button and the error box. *)
Definition is_control (id : string) : bool :=
  String.eqb id "error-box" || String.eqb id "btn-text" || String.eqb id "btn-spinner".

(** The elements written by the blocks that follow the issues. *)
Definition AFTER_ISSUES : list string :=
  ["grammar-summary"; "tone-summary"; "cta-status"; "tags-final"; "tags-trending";
   "optimized-title"; "optimized-content"; "cta-list"].

(** The fields of a result that the handler reads. *)
Definition RESULT_KEYS : list string :=
  ["overall_score"; "scores_breakdown"; "issues_found"; "content_checks"; "hashtags";
   "final_output"; "improvements"].

Section FurtherNotions.
Context {E : Engine}.

(** The JSON text of an optional field of the payload, and of the payload. *)
Definition json_optional (s : string) : string :=
  if str_empty s then "null" else quote s.

Definition payload_text (inp : Inputs) : string :=
  "{" ++ join ","
    [quote "platform" ++ ":" ++ quote (platform inp);
     quote "title" ++ ":" ++ json_optional (trim (title inp));
     quote "content" ++ ":" ++ quote (trim (content inp));
     quote "hashtags" ++ ":" ++
       ("[" ++ join "," (map quote (split_hashtags (trim (hashtags inp)))) ++ "]");
     quote "geo" ++ ":" ++ json_optional (trim (geo inp));
     quote "niche" ++ ":" ++ json_optional (trim (niche inp));
     quote "target_audience" ++ ":" ++ json_optional (trim (target_audience inp))]
  ++ "}".

(** The width given to the score bar: [`${Math.min(overallScore, 100)}%`]. *)
Definition bar_width (overallScore : value) : string :=
  NumberToString (num_min (ToNumber overallScore) (Fin 100)) ++ "%".

(** Whether a text is one of the mandatory tags, as [isMandatoryHashtag]
    answers on a string. *)
Definition mandatory (t : string) : bool :=
  existsb (fun m => String.eqb (replace_non_az09 (toLowerCase m))
                      (replace_non_az09 (toLowerCase t)))
    MANDATORY_HASHTAGS.

(** The class of a chip without a competition level, the chip of a tag given
    as a string, and what a group of hashtags shows for a list of strings. *)
Definition chip_class (trending : bool) (t : string) : string :=
  "chip" ++ (if mandatory t then " mandatory" else if trending then " trending" else "").

Definition string_chip (trending : bool) (t : string) : Child :=
  Created "span" (chip_class trending t) t.

Definition chips (trending : bool) (tags : list string) : list Child :=
  match tags with
  | [] => [Markup (muted "span" "None")]
  | _ => map (string_chip trending) tags
  end.

(** The [try] block and the [catch] block of the listener, and the page on
    which the [try] block is entered. *)
Definition try_block (net : Request -> FetchResult) (inp : Inputs) : M unit :=
  res <- fetch net (analyze_request (API_BASE (hostname inp)) (build_payload inp)) ;;
  let '(ok, b) := res in
  if negb ok then
    let errData := match b with
                   | JsonBody d => d
                   | BadBody _ => VObj []
                   end in
    detail <- lift (get errData "detail") ;;
    throw (new_Error (or_else detail (VStr "Server error")))
  else
    data <- lift (match b with
                  | JsonBody d => Ok d
                  | BadBody e => Throw e
                  end) ;;
    show_response data.

Definition catch_block (err : exn) : M unit :=
  modify (fun w => with_console (console w ++ [err]) w) ;;
  set_textContent "error-box"
    (or_else (VStr (message err)) (VStr "Something went wrong.")) ;;
  on_element "error-box" (classList_remove "hidden").

Definition entered (w : World) : World :=
  snd (setLoading true
         (snd (set_textContent "error-box" (VStr "")
                 (snd (on_element "error-box" (classList_add "hidden") w))))).

End FurtherNotions.

(** A form with content, transports, and payloads for the closed instances. *)
Definition filled_form : Inputs :=
  {| hostname := "qa.example.org"; platform := "instagram"; title := "";
     content := " Launch day "; hashtags := "#SNS Square, #random";
     geo := ""; niche := "design"; target_audience := "" |}.

Definition failed_to_fetch : exn :=
  {| exn_name := "TypeError"; message := "Failed to fetch" |}.

Definition net_down (req : Request) : FetchResult := Rejected failed_to_fetch.

Definition net_error (detail : value) (req : Request) : FetchResult :=
  Response false (JsonBody (VObj [("detail", detail)])).

Definition net_ok (data : value) (req : Request) : FetchResult :=
  Response true (JsonBody data).

Definition bad_issues : value := VObj [("issues_found", VStr "oops")].

Definition tagged_result : value :=
  VObj [("final_output", VObj [("final_hashtag_pack", VArr (map VStr ["#SNS Square"; "#a"]))]);
        ("hashtags", VObj [("trending", VArr (map VStr ["#b"]))])].

(* ================================================================= *)
(** ** An engine for ASCII text *)

Lemma trim_start_idem (s : string) : trim_start (trim_start s) = trim_start s.
Proof.
  induction s as [|c s IH]; simpl; [reflexivity|].
  destruct (is_space c) eqn:Hc; [exact IH|].
  simpl. now rewrite Hc.
Qed.

Lemma trim_end_idem (s : string) : trim_end (trim_end s) = trim_end s.
Proof.
  induction s as [|c s IH]; simpl; [reflexivity|].
  destruct (trim_end s) as [|d t] eqn:Ht.
  - destruct (is_space c) eqn:Hc; simpl; [reflexivity|now rewrite Hc].
  - simpl in *. now rewrite IH.
Qed.

(** A text with no white space at its end keeps that after its start is
    trimmed. *)
Lemma trim_end_tail (c : ascii) (s : string) :
  trim_end (String c s) = String c s -> trim_end s = s.
Proof.
  simpl. destruct (trim_end s) as [|d t] eqn:Ht.
  - destruct (is_space c); [discriminate|]. now intros [= <-].
  - now intros [= <-].
Qed.

Lemma trim_end_trim_start (s : string) :
  trim_end s = s -> trim_end (trim_start s) = trim_start s.
Proof.
  induction s as [|c s IH]; intros Hs; [reflexivity|].
  simpl. destruct (is_space c) eqn:Hc; [|exact Hs].
  apply IH. exact (trim_end_tail c s Hs).
Qed.

Lemma ascii_trim_idem (s : string) : ascii_trim (ascii_trim s) = ascii_trim s.
Proof.
  unfold ascii_trim.
  rewrite (trim_end_trim_start (trim_end s) (trim_end_idem s)).
  apply trim_start_idem.
Qed.

(** The engine restricted to ASCII text: its case and white-space functions
    are the ASCII ones, and it prints no fraction and reads no number.  It
    shows that the laws of [Engine] can be met, and stands for the engine in the
    closed instances, none of which calls a built-in outside that fragment. *)
Definition ascii_engine : Engine :=
  {| toLowerCase := ascii_lower;
     trim := ascii_trim;
     StringToNumber := fun _ => NaN;
     fractionToString := fun _ => "NaN";
     typeErrorMessage := fun place => place ++ " is not defined";
     toLowerCase_ascii := fun s _ => eq_refl;
     trim_ascii := fun s _ => eq_refl;
     trim_trim := ascii_trim_idem |}.

(** The prototypes of the closed instances: the names of the standard. *)
Lemma builtin_names_listed (k : string) :
  In k BUILTIN_NAMES -> existsb (String.eqb k) BUILTIN_NAMES = true.
Proof.
  intros Hk. apply existsb_exists. exists k.
  split; [exact Hk|apply String.eqb_refl].
Qed.

Definition listed_prototypes : Prototypes :=
  {| inherited := fun k => existsb (String.eqb k) BUILTIN_NAMES;
     inherited_builtin := builtin_names_listed |}.

(* ================================================================= *)
(** ** The pure functions *)

Section Properties.
Context {E : Engine} {P : Prototypes}.

(* ----------------------------------------------------------------- *)
(** *** The score classifier *)

Lemma value_ge_fin (q r : Q) : value_ge (VNum (Fin q)) (Fin r) = Qle_bool r q.
Proof.
  unfold value_ge, num_ge. simpl. now destruct (Qle_bool r q).
Qed.

Lemma getScoreClass_fin (s : Q) :
  getScoreClass (VNum (Fin s)) =
  if Qle_bool 90 s then "excellent"
  else if Qle_bool 75 s then "good"
  else if Qle_bool 60 s then "average"
  else "poor".
Proof.
  unfold getScoreClass. now rewrite !value_ge_fin.
Qed.

Lemma Qle_bool_false (x y : Q) : Qle_bool x y = false <-> (y < x)%Q.
Proof.
  rewrite <- not_true_iff_false, Qle_bool_iff. split.
  - apply Qnot_le_lt.
  - apply Qlt_not_le.
Qed.

Ltac split_bands :=
  rewrite getScoreClass_fin;
  repeat match goal with
         | |- context [Qle_bool ?a ?b] =>
             let H := fresh "H" in
             destruct (Qle_bool a b) eqn:H;
             [apply Qle_bool_iff in H | apply Qle_bool_false in H]
         end;
  try reflexivity; exfalso; lra.


(* ----------------------------------------------------------------- *)
(** *** The mandatory hashtags *)

Lemma normalize_ascii (t : string) :
  is_ascii t = true -> normalize t = replace_non_az09 (ascii_lower t).
Proof.
  intros H. unfold normalize. now rewrite (toLowerCase_ascii t H).
Qed.

Lemma isMandatoryHashtag_str (t : string) :
  isMandatoryHashtag (VStr t) =
  Ok (existsb (fun m => String.eqb (normalize m) (normalize t)) MANDATORY_HASHTAGS).
Proof. reflexivity. Qed.

Ltac normalize_texts :=
  rewrite isMandatoryHashtag_str; unfold MANDATORY_HASHTAGS; cbn [existsb];
  rewrite !normalize_ascii by reflexivity.

(** The normalized forms of the four mandatory tags. *)
Lemma isMandatoryHashtag_forms (t : string) :
  isMandatoryHashtag (VStr t) =
  Ok (existsb (String.eqb (normalize t))
        ["snssquare"; "snsihub"; "snsdesignthinking"; "designthinkers"]).
Proof.
  rewrite isMandatoryHashtag_str. unfold MANDATORY_HASHTAGS. cbn [existsb].
  rewrite (normalize_ascii "#snssquare" eq_refl), (normalize_ascii "#snsihub" eq_refl),
    (normalize_ascii "#snsdesignthinking" eq_refl),
    (normalize_ascii "#designthinkers" eq_refl).
  rewrite (String.eqb_sym (normalize t) "snssquare"),
    (String.eqb_sym (normalize t) "snsihub"),
    (String.eqb_sym (normalize t) "snsdesignthinking"),
    (String.eqb_sym (normalize t) "designthinkers").
  reflexivity.
Qed.

(** C2. A tag is mandatory exactly when its normalized form is the normalized
    form of one of the four fixed tags, that is, one of snssquare, snsihub,
    snsdesignthinking and designthinkers; "#SNSSquare!", "sns square" and
    "#snssquare" are mandatory, "#snsx" is not. *)
Theorem isMandatoryHashtag_iff :
  (forall t : string,
      exists b, isMandatoryHashtag (VStr t) = Ok b /\
                (b = true <->
                 exists m, In m MANDATORY_HASHTAGS /\ normalize t = normalize m) /\
                (b = true <->
                 In (normalize t)
                    ["snssquare"; "snsihub"; "snsdesignthinking"; "designthinkers"])) /\
  isMandatoryHashtag (VStr "#SNSSquare!") = Ok true /\
  isMandatoryHashtag (VStr "sns square") = Ok true /\
  isMandatoryHashtag (VStr "#snssquare") = Ok true /\
  isMandatoryHashtag (VStr "#snsx") = Ok false.
Proof.
  split; [|repeat split; normalize_texts; reflexivity].
  intros t.
  assert (Hf : existsb (fun m => String.eqb (normalize m) (normalize t))
                 MANDATORY_HASHTAGS
               = existsb (String.eqb (normalize t))
                   ["snssquare"; "snsihub"; "snsdesignthinking"; "designthinkers"]).
  { pose proof (isMandatoryHashtag_forms t) as H.
    rewrite isMandatoryHashtag_str in H. congruence. }
  eexists. split; [apply isMandatoryHashtag_str|]. split.
  - rewrite existsb_exists. split.
    + intros [m [Hin Heq]]. exists m. split; [exact Hin|].
      apply String.eqb_eq in Heq. now symmetry.
    + intros [m [Hin Heq]]. exists m. split; [exact Hin|].
      apply String.eqb_eq. now symmetry.
  - rewrite Hf, existsb_exists. split.
    + intros [m [Hin Heq]]. apply String.eqb_eq in Heq. now rewrite Heq.
    + intros Hin. exists (normalize t). split; [exact Hin|apply String.eqb_refl].
Qed.

(* ----------------------------------------------------------------- *)
(** *** The path resolver *)

Lemma safeGet_str (obj : value) (s : string) (fallback : value) :
  safeGet obj (VStr s) fallback =
  Ok (coalesce (fold_left safeGet_step (str_split "." s) obj)
        (default_param fallback VNull)).
Proof. reflexivity. Qed.

Lemma fold_step_falsy (keys : list string) (a : value) :
  truthy a = false -> nullish (fold_left safeGet_step (keys) a) = nullish a \/
                      fold_left safeGet_step keys a = VUndefined.
Proof.
  intros Ha. destruct keys as [|k rest]; [now left|right].
  simpl. unfold safeGet_step at 2. rewrite Ha.
  induction rest as [|k' rest IH]; [reflexivity|exact IH].
Qed.

Lemma fold_step_nullish (keys : list string) (a : value) :
  nullish a = true -> nullish (fold_left safeGet_step keys a) = true.
Proof.
  intros Ha.
  assert (Hf : truthy a = false) by (destruct a; try discriminate; reflexivity).
  destruct (fold_step_falsy keys a Hf) as [H|H]; rewrite H; auto.
Qed.

(** Where the language reaches a value, the reduction of [safeGet] holds
    that value or undefined. *)
Lemma fold_step_follow_present (keys : list string) (obj v : value) :
  follow present obj keys = Some v ->
  fold_left safeGet_step keys obj = v \/
  fold_left safeGet_step keys obj = VUndefined.
Proof.
  revert obj. induction keys as [|k rest IH]; intros obj H; simpl in *.
  - left. now inversion H.
  - destruct (present obj); [|discriminate].
    unfold safeGet_step at 2 4. destruct (truthy obj) eqn:Ht.
    + now apply IH.
    + right. destruct (fold_step_falsy rest VUndefined eq_refl) as [Hn|Hu]; [|exact Hu].
      destruct rest; [reflexivity|].
      simpl. clear. induction rest; [reflexivity|assumption].
Qed.

Lemma fold_step_follow_truthy (keys : list string) (obj v : value) :
  follow truthy obj keys = Some v -> fold_left safeGet_step keys obj = v.
Proof.
  revert obj. induction keys as [|k rest IH]; intros obj H; simpl in *.
  - now inversion H.
  - unfold safeGet_step at 2. destruct (truthy obj); [|discriminate]. now apply IH.
Qed.

Lemma step_from_reached (a v : value) (k : string) :
  a = v \/ a = VUndefined ->
  nullish (getProp v k) = true \/ truthy v = false ->
  nullish (safeGet_step a k) = true.
Proof.
  intros [->| ->] H; [|reflexivity].
  unfold safeGet_step. destruct (truthy v) eqn:Ht; [|reflexivity].
  destruct H as [H|H]; [exact H|discriminate].
Qed.

Lemma safeGet_falls_back (obj : value) (s : string) (fallback : value)
      (pre : list string) (k : string) (post : list string) (v : value) :
  str_split "." s = (pre ++ k :: post)%list ->
  follow present obj pre = Some v ->
  nullish (getProp v k) = true \/ truthy v = false ->
  safeGet obj (VStr s) fallback = Ok (default_param fallback VNull).
Proof.
  intros Hs Hpre Hk. rewrite safeGet_str, Hs, fold_left_app. simpl.
  unfold coalesce. rewrite fold_step_nullish; [reflexivity|].
  apply step_from_reached with (v := v); [|exact Hk].
  now apply fold_step_follow_present.
Qed.


(** C10. A value that is falsy, though neither null nor undefined, at a
    segment that is not the last one ends the traversal: the result is the
    fallback, whatever the rest of the path finds on that value.  With
    "a.length" on {a:""} the language reaches 0, and [safeGet] gives the
    fallback. *)
Theorem safeGet_falsy_inner_segment (obj : value) (s : string) (fallback : value) :
  (forall pre k post v,
      str_split "." s = (pre ++ k :: post)%list ->
      follow present obj pre = Some v ->
      nullish v = false ->
      truthy v = false ->
      safeGet obj (VStr s) fallback = Ok (default_param fallback VNull)) /\
  follow present (VObj [("a", VStr "")]) (str_split "." "a.length") = Some (VNum (Fin 0)) /\
  safeGet (VObj [("a", VStr "")]) (VStr "a.length") fallback
  = Ok (default_param fallback VNull).
Proof.
  split; [|split; reflexivity].
  intros pre k post v Hs Hpre _ Hf.
  apply safeGet_falls_back with (pre := pre) (k := k) (post := post) (v := v); auto.
Qed.

End Properties.

(* ================================================================= *)
(** ** Class lists *)

Section ClassList.

Lemma split_by_spaceless (t : string) :
  spaceless t = true -> split_by is_class_space t = [t].
Proof.
  induction t as [|c t IH]; intros H; [reflexivity|].
  simpl in *. apply andb_true_iff in H as [Hc Ht].
  apply negb_true_iff in Hc. rewrite Hc, (IH Ht). reflexivity.
Qed.

Lemma split_by_append (t rest : string) :
  spaceless t = true ->
  split_by is_class_space (t ++ String " " rest) = t :: split_by is_class_space rest.
Proof.
  induction t as [|c t IH]; intros H; [reflexivity|].
  simpl in *. apply andb_true_iff in H as [Hc Ht].
  apply negb_true_iff in Hc. rewrite Hc, (IH Ht). reflexivity.
Qed.

Lemma split_by_pieces (s : string) :
  Forall (fun t => spaceless t = true) (split_by is_class_space s).
Proof.
  induction s as [|c s IH]; simpl.
  - repeat constructor.
  - destruct (is_class_space c) eqn:Hc.
    + constructor; [reflexivity|exact IH].
    + destruct (split_by is_class_space s) as [|h t].
      * repeat constructor. unfold spaceless. simpl. now rewrite Hc.
      * inversion IH as [|? ? Hh Ht]; subst. constructor; [|assumption].
        unfold spaceless in *. simpl. now rewrite Hc.
Qed.

Lemma split_join (ts : list string) :
  ts <> [] ->
  Forall (fun t => spaceless t = true) ts ->
  split_by is_class_space (join " " ts) = ts.
Proof.
  induction ts as [|x rest IH]; intros Hne Hall; [congruence|].
  inversion Hall as [|? ? Hx Hrest]; subst.
  destruct rest as [|y rest'].
  - simpl. now apply split_by_spaceless.
  - change (join " " (x :: y :: rest')) with (x ++ String " " (join " " (y :: rest'))).
    rewrite (split_by_append _ _ Hx), IH; [reflexivity|discriminate|assumption].
Qed.

Lemma has_token_filter (f : string -> bool) (tok : string) (l : list string) :
  has_token tok (filter f l) = f tok && has_token tok l.
Proof.
  unfold has_token. induction l as [|x l IH]; simpl.
  - now rewrite andb_false_r.
  - destruct (String.eqb tok x) eqn:Hx.
    + apply String.eqb_eq in Hx. subst x. destruct (f tok); simpl.
      * now rewrite String.eqb_refl.
      * exact IH.
    + destruct (f x); simpl; [rewrite Hx|]; exact IH.
Qed.

Lemma has_token_dedupe (tok : string) (l : list string) :
  has_token tok (dedupe l) = has_token tok l.
Proof.
  induction l as [|x l IH]; [reflexivity|].
  simpl dedupe. unfold has_token in *. simpl.
  destruct (String.eqb tok x) eqn:Hx; [reflexivity|]. simpl.
  fold (has_token tok (filter (fun y => negb (String.eqb y x)) (dedupe l))).
  rewrite has_token_filter, Hx. exact IH.
Qed.

Lemma has_token_tokens (tok cls : string) :
  has_token tok (tokens cls) =
  negb (str_empty tok) && has_token tok (split_by is_class_space cls).
Proof.
  unfold tokens. now rewrite has_token_dedupe, has_token_filter.
Qed.

Lemma dedupe_In (l : list string) (x : string) : In x (dedupe l) -> In x l.
Proof.
  induction l as [|y l IH]; simpl; [tauto|].
  intros [->|Hx]; [now left|]. apply filter_In in Hx. right. now apply IH.
Qed.

Lemma tokens_spaceless (cls : string) :
  Forall (fun t => spaceless t = true) (tokens cls).
Proof.
  unfold tokens. apply Forall_forall. intros t Ht.
  pose proof (split_by_pieces cls) as Hall. rewrite Forall_forall in Hall.
  apply Hall. apply dedupe_In in Ht. now apply filter_In in Ht.
Qed.

Lemma has_token_join (tok : string) (ts : list string) :
  Forall (fun t => spaceless t = true) ts ->
  has_token tok (tokens (join " " ts)) = negb (str_empty tok) && has_token tok ts.
Proof.
  intros Hall. rewrite has_token_tokens. destruct ts as [|x rest].
  - simpl. destruct tok; reflexivity.
  - rewrite split_join; [reflexivity|discriminate|assumption].
Qed.

(** After [classList.remove(tok)] the class list does not contain [tok]. *)
Lemma contains_remove (tok : string) (e : Element) :
  classList_contains tok (classList_remove tok e) = false.
Proof.
  unfold classList_contains, classList_remove. simpl.
  rewrite has_token_join.
  - rewrite has_token_filter, String.eqb_refl. simpl. now rewrite andb_false_r.
  - apply Forall_forall. intros t Ht. apply filter_In in Ht as [Ht _].
    revert t Ht. apply Forall_forall, tokens_spaceless.
Qed.

(** After [classList.add(tok)] the class list contains [tok]. *)
Lemma contains_add (tok : string) (e : Element) :
  str_empty tok = false -> spaceless tok = true ->
  classList_contains tok (classList_add tok e) = true.
Proof.
  intros Hne Hsp. unfold classList_contains, classList_add. simpl.
  pose proof (tokens_spaceless (className e)) as Hts.
  destruct (has_token tok (tokens (className e))) eqn:Hin.
  - rewrite has_token_join by assumption. now rewrite Hne, Hin.
  - rewrite has_token_join.
    + rewrite Hne. unfold has_token. rewrite existsb_app. simpl.
      rewrite String.eqb_refl. now rewrite orb_true_r.
    + apply Forall_app. split; [assumption|]. now repeat constructor.
Qed.

End ClassList.

(* ================================================================= *)
(** ** Statements and the elements they leave alone *)

Section Frames.

Lemma keeps_ret {A : Type} (id : string) (a : A) : keeps id (ret a).
Proof. intros w. reflexivity. Qed.

Lemma keeps_throw {A : Type} (id : string) (e : exn) : keeps id (@throw A e).
Proof. intros w. reflexivity. Qed.

Lemma keeps_lift {A : Type} (id : string) (o : Outcome A) : keeps id (lift o).
Proof. intros w. reflexivity. Qed.

Lemma keeps_bind {A B : Type} (id : string) (m : M A) (k : A -> M B) :
  keeps id m -> (forall a, keeps id (k a)) -> keeps id (bind m k).
Proof.
  intros Hm Hk w. unfold bind. specialize (Hm w).
  destruct (m w) as [[a|e] w']; simpl in *; [rewrite Hk|]; exact Hm.
Qed.

Lemma keeps_on_element (id id' : string) (f : Element -> Element) :
  String.eqb id id' = false -> keeps id (on_element id' f).
Proof.
  intros H w. unfold on_element, modify, upd. simpl. now rewrite H.
Qed.

Lemma keeps_modify (id : string) (f : World -> World) :
  (forall w, dom (f w) = dom w) -> keeps id (modify f).
Proof.
  intros H w. unfold modify. simpl. now rewrite H.
Qed.

Lemma keeps_for_each {A : Type} (id : string) (f : A -> M unit) (l : list A) :
  (forall x, keeps id (f x)) -> keeps id (for_each f l).
Proof.
  intros Hf. induction l as [|x l IH]; simpl.
  - apply keeps_ret.
  - apply keeps_bind; [apply Hf|intros _; exact IH].
Qed.

(** What follows [m] in a sequence does not show on an element it keeps. *)
Lemma bind_keeps {A B : Type} (id : string) (m : M A) (k : A -> M B) (w : World) :
  (forall a, keeps id (k a)) ->
  dom (snd (bind m k w)) id = dom (snd (m w)) id.
Proof.
  intros Hk. unfold bind. destruct (m w) as [[a|e] w']; simpl; [apply Hk|reflexivity].
Qed.

Lemma bind_fst_ok {B : Type} (m : M unit) (k : unit -> M B) (w : World) :
  fst (m w) = Ok tt -> bind m k w = k tt (snd (m w)).
Proof.
  unfold bind. destruct (m w) as [[[]|e] w']; simpl; [reflexivity|discriminate].
Qed.

Lemma bind_succeeds {B : Type} (m : M unit) (k : M B) (w : World) :
  succeeds m -> (m ;; k) w = k (snd (m w)).
Proof.
  intros H. now apply bind_fst_ok.
Qed.

Lemma succeeds_bind (m k : M unit) : succeeds m -> succeeds k -> succeeds (m ;; k).
Proof.
  intros Hm Hk w. rewrite (bind_succeeds m k w Hm). apply Hk.
Qed.

Lemma succeeds_on_element (id : string) (f : Element -> Element) :
  succeeds (on_element id f).
Proof. intros w. reflexivity. Qed.

Lemma quiet_ret {A : Type} (a : A) : sends [] (ret a).
Proof. intros w. reflexivity. Qed.

Lemma quiet_throw {A : Type} (e : exn) : sends [] (@throw A e).
Proof. intros w. reflexivity. Qed.

Lemma quiet_lift {A : Type} (o : Outcome A) : sends [] (lift o).
Proof. intros w. reflexivity. Qed.

Lemma quiet_modify (f : World -> World) :
  (forall w, fetches (f w) = fetches w) -> sends [] (modify f).
Proof. intros H w. exact (H w). Qed.

Lemma quiet_on_element (id : string) (f : Element -> Element) :
  sends [] (on_element id f).
Proof. intros w. reflexivity. Qed.

Lemma sends_bind {A B : Type} (first rest : list Request) (m : M A) (k : A -> M B) :
  sends first m -> (forall a, sends rest (k a)) ->
  forall w, fetches (snd (bind m k w)) =
            match fst (m w) with
            | Ok _ => (rest ++ first ++ fetches w)%list
            | Throw _ => (first ++ fetches w)%list
            end.
Proof.
  intros Hm Hk w. unfold bind. specialize (Hm w).
  destruct (m w) as [[a|e] w']; simpl in *; [|exact Hm].
  now rewrite Hk, Hm.
Qed.

Lemma quiet_bind {A B : Type} (m : M A) (k : A -> M B) :
  sends [] m -> (forall a, sends [] (k a)) -> sends [] (bind m k).
Proof.
  intros Hm Hk w. rewrite (sends_bind [] [] m k Hm Hk).
  now destruct (fst (m w)).
Qed.

(** A statement that sends, followed by statements that do not. *)
Lemma sends_then_quiet {A B : Type} (reqs : list Request) (m : M A) (k : A -> M B) :
  sends reqs m -> (forall a, sends [] (k a)) -> sends reqs (bind m k).
Proof.
  intros Hm Hk w. rewrite (sends_bind reqs [] m k Hm Hk).
  now destruct (fst (m w)).
Qed.

Lemma quiet_then_sends {A B : Type} (reqs : list Request) (m : M A) (k : A -> M B) :
  sends [] m -> (forall w, exists a, fst (m w) = Ok a) ->
  (forall a, sends reqs (k a)) -> sends reqs (bind m k).
Proof.
  intros Hm Hok Hk w. rewrite (sends_bind [] reqs m k Hm Hk).
  destruct (Hok w) as [a ->]. reflexivity.
Qed.

Lemma quiet_for_each {A : Type} (f : A -> M unit) (l : list A) :
  (forall x, sends [] (f x)) -> sends [] (for_each f l).
Proof.
  intros Hf. induction l as [|x l IH]; simpl.
  - apply quiet_ret.
  - apply quiet_bind; [apply Hf|intros _; exact IH].
Qed.

Lemma sends_try_catch_finally (reqs : list Request)
      (body : M unit) (handler : exn -> M unit) (final : M unit) :
  sends reqs body -> (forall e, sends [] (handler e)) -> sends [] final ->
  sends reqs (try_catch_finally body handler final).
Proof.
  intros Hb Hh Hf w. unfold try_catch_finally. specialize (Hb w).
  destruct (body w) as [[u|e] w1]; simpl in Hb.
  - now rewrite Hf.
  - specialize (Hh e w1). destruct (handler e w1) as [[u|e'] w2]; simpl in Hh.
    + now rewrite Hf, Hh.
    + specialize (Hf w2). destruct (final w2) as [[u|e''] w3]; simpl in *;
        now rewrite Hf, Hh.
Qed.

Lemma truthy_present (v : value) : truthy v = true -> nullish v = false.
Proof. destruct v; simpl; congruence. Qed.

Lemma or_else_present (a b : value) : nullish b = false -> nullish (or_else a b) = false.
Proof.
  intros Hb. unfold or_else. destruct (truthy a) eqn:Ha; [|exact Hb].
  now apply truthy_present.
Qed.

Lemma lookup_absent (k : string) (props : list (string * value)) :
  ~ In k (map fst props) -> lookup k props = VUndefined.
Proof.
  induction props as [|[k' v] props IH]; simpl; intros H; [reflexivity|].
  destruct (String.eqb k k') eqn:Hk.
  - apply String.eqb_eq in Hk. subst. tauto.
  - apply IH. tauto.
Qed.

(** A statement whose value is known. *)
Lemma bind_lift_ok {A B : Type} (a : A) (k : A -> M B) : bind (lift (Ok a)) k = k a.
Proof. reflexivity. Qed.

Lemma printable_coalesce (a b : value) :
  printable a = true -> printable b = true -> printable (coalesce a b) = true.
Proof. intros Ha Hb. unfold coalesce. now destruct (nullish a). Qed.

Lemma printable_or_else (a b : value) :
  printable a = true -> printable b = true -> printable (or_else a b) = true.
Proof. intros Ha Hb. unfold or_else. now destruct (truthy a). Qed.

(** Appending one created element per item, in order, when each can be
    made. *)
Lemma for_each_made (id : string) (g : value -> Outcome Child) (h : value -> Child)
      (items : list value) (w : World) :
  Forall (fun x => g x = Ok (h x)) items ->
  fst (for_each (fun x => c <- lift (g x) ;; appendChild id c) items w) = Ok tt /\
  children (dom (snd (for_each (fun x => c <- lift (g x) ;; appendChild id c) items w)) id)
  = (children (dom w id) ++ map h items)%list.
Proof.
  intros Hall. set (F := fun x => c <- lift (g x) ;; appendChild id c).
  revert w. induction Hall as [|x items Hx _ IH]; intros w.
  - split; [reflexivity|]. simpl. now rewrite app_nil_r.
  - assert (Hstep : F x w
                    = (Ok tt,
                       with_dom (upd id (fun e => with_children (children e ++ [h x]) e)
                                   (dom w)) w)).
    { unfold F, bind, lift. rewrite Hx. reflexivity. }
    cbn [for_each]. rewrite (bind_fst_ok (F x) _ w) by (now rewrite Hstep).
    rewrite Hstep. cbn [snd].
    match goal with
    | |- context [for_each _ items ?w0] => destruct (IH w0) as [Hok Hch]
    end.
    split; [exact Hok|]. rewrite Hch. cbn [dom with_dom].
    unfold upd. rewrite String.eqb_refl. cbn [children with_children].
    now rewrite <- app_assoc.
Qed.

End Frames.

Ltac frame_step :=
  first
    [ apply keeps_ret
    | apply keeps_throw
    | apply keeps_lift
    | apply keeps_on_element; first [reflexivity | assumption]
    | apply keeps_bind; [|intros ?]
    | match goal with
      | |- keeps _ (if ?c then _ else _) => destruct c
      end ].

Ltac quiet_step :=
  first
    [ apply quiet_ret
    | apply quiet_throw
    | apply quiet_lift
    | apply quiet_on_element
    | apply quiet_modify; intros ?; try destruct (score_section _); reflexivity
    | apply quiet_for_each; intros ?
    | apply quiet_bind; [|intros ?]
    | match goal with
      | |- sends [] (if ?c then _ else _) => destruct c
      | |- sends [] (forEach ?xs _) => destruct xs; cbn [forEach]
      end ].

Ltac quiet :=
  unfold set_textContent, set_innerHTML, set_className, appendChild, show_score;
  repeat quiet_step.

(** Running a sequence of statements on a page, and reading an element of the
    page it leaves. *)
Ltac run :=
  cbn [bind lift modify on_element set_textContent set_className set_innerHTML
       appendChild show_score ret throw fst snd printable
       dom score_section timers console fetches
       with_dom with_timers with_score_section with_console with_fetches].

Ltac look :=
  cbn [upd String.eqb Ascii.eqb Bool.eqb with_children with_className
       children className].

(* ================================================================= *)
(** ** The response on the page *)

Section Normalizer.
Context {E : Engine}.

Ltac eval_block :=
  cbn [forEach for_each get getProp lookup nullish truthy or_else coalesce
       negb orb andb obind num_truthy str_empty String.eqb Ascii.eqb Bool.eqb
       bind lift modify on_element set_textContent set_className set_innerHTML
       appendChild show_score ret throw fst snd printable template list_item
       dom score_section timers console fetches
       with_dom with_timers with_score_section with_console with_fetches].

Lemma get_present (v : value) (k : string) :
  nullish v = false -> get v k = Ok (getProp v k).
Proof.
  intros H. unfold get. now rewrite H.
Qed.

Lemma keeps_forEach (id : string) (xs : value) (f : value -> M unit) :
  (forall x, keeps id (f x)) -> keeps id (forEach xs f).
Proof.
  intros Hf. destruct xs; simpl; try apply keeps_throw. now apply keeps_for_each.
Qed.

Lemma keeps_renderChips (id container : string) (items : value) (trending : bool) :
  String.eqb id container = false -> keeps id (renderChips container items trending).
Proof.
  intros H. unfold renderChips, set_innerHTML, appendChild.
  repeat first [ apply keeps_forEach; intros ? | frame_step ].
Qed.

Lemma keeps_show_scores (id : string) (result : value) :
  String.eqb id "overall-score" = false ->
  (forall key, ~ In (id, key) BREAKDOWN) ->
  keeps id (show_scores result).
Proof.
  intros H0 Hb.
  assert (H1 : String.eqb id "score-quality" = false).
  { apply String.eqb_neq. intros ->. apply (Hb "quality_score"). simpl. tauto. }
  assert (H2 : String.eqb id "score-seo" = false).
  { apply String.eqb_neq. intros ->. apply (Hb "seo_score"). simpl. tauto. }
  assert (H3 : String.eqb id "score-engagement" = false).
  { apply String.eqb_neq. intros ->. apply (Hb "engagement_score"). simpl. tauto. }
  assert (H4 : String.eqb id "score-structure" = false).
  { apply String.eqb_neq. intros ->. apply (Hb "structure_score"). simpl. tauto. }
  unfold show_scores, show_score, set_textContent, set_className.
  repeat first
    [ apply keeps_modify; intros ?; try destruct (score_section _); reflexivity
    | frame_step ].
Qed.

Lemma keeps_show_issues (id : string) (result : value) :
  String.eqb id "issues-list" = false -> keeps id (show_issues result).
Proof.
  intros H. unfold show_issues, set_innerHTML, appendChild.
  repeat first [ apply keeps_forEach; intros ? | frame_step ].
Qed.

Lemma keeps_show_checks (id : string) (result : value) :
  String.eqb id "grammar-summary" = false ->
  String.eqb id "tone-summary" = false ->
  String.eqb id "cta-status" = false ->
  keeps id (show_checks result).
Proof.
  intros H1 H2 H3. unfold show_checks, set_textContent. repeat frame_step.
Qed.

Lemma keeps_show_hashtags (id : string) (result : value) :
  String.eqb id "tags-final" = false ->
  String.eqb id "tags-trending" = false ->
  keeps id (show_hashtags result).
Proof.
  intros H1 H2. unfold show_hashtags.
  repeat first [ apply keeps_renderChips; assumption | frame_step ].
Qed.

Lemma keeps_show_optimized (id : string) (result : value) :
  String.eqb id "optimized-title" = false ->
  String.eqb id "optimized-content" = false ->
  keeps id (show_optimized result).
Proof.
  intros H1 H2. unfold show_optimized, set_textContent. repeat frame_step.
Qed.

Lemma keeps_show_ctas (id : string) (result : value) :
  String.eqb id "cta-list" = false -> keeps id (show_ctas result).
Proof.
  intros H. unfold show_ctas, set_innerHTML, appendChild.
  repeat first [ apply keeps_forEach; intros ? | frame_step ].
Qed.

Lemma quiet_renderChips (container : string) (items : value) (trending : bool) :
  sends [] (renderChips container items trending).
Proof. unfold renderChips. quiet. Qed.

Lemma quiet_show_response (data : value) : sends [] (show_response data).
Proof.
  unfold show_response, show_result, show_scores, show_issues, show_checks,
    show_hashtags, show_optimized, show_ctas.
  repeat first [ apply quiet_renderChips | progress quiet ].
Qed.

Lemma show_response_eq (data : value) (w : World) :
  nullish data = false ->
  show_response data w = show_result (or_else (getProp data "raw_json") data) w.
Proof.
  intros H. unfold show_response, select_result. now rewrite (get_present _ _ H).
Qed.

Lemma set_textContent_printable (id : string) (v : value) :
  printable v = true ->
  set_textContent id v = on_element id (with_children (text_children (domString v))).
Proof. intros H. unfold set_textContent. now rewrite H. Qed.

(** The block of the scores on a result that is not null, its lookups done. *)
Lemma show_scores_eq (result : value) :
  nullish result = false ->
  show_scores result
  = let overallScore := coalesce (getProp result "overall_score") (VNum (Fin 0)) in
    let breakdown := or_else (getProp result "scores_breakdown") (VObj []) in
    set_textContent "overall-score" overallScore ;;
    set_className "overall-score" ("score-big " ++ getScoreClass overallScore) ;;
    modify (fun w =>
      match score_section w with
      | Some scoreSection =>
          with_score_section
            (Some (with_className ("score-section " ++ getScoreClass overallScore)
                     scoreSection)) w
      | None => w
      end) ;;
    show_score "score-quality" (getProp breakdown "quality_score") ;;
    show_score "score-seo" (getProp breakdown "seo_score") ;;
    show_score "score-engagement" (getProp breakdown "engagement_score") ;;
    show_score "score-structure" (getProp breakdown "structure_score") ;;
    modify (fun w =>
      with_timers
        (timers w ++
         [(100, "score-bar-fill",
           NumberToString (num_min (ToNumber overallScore) (Fin 100)) ++ "%")]) w).
Proof.
  intros H.
  assert (Hb : nullish (or_else (getProp result "scores_breakdown") (VObj [])) = false)
    by (now apply or_else_present).
  unfold show_scores. rewrite !(get_present _ _ H).
  rewrite !bind_lift_ok. cbv beta zeta.
  rewrite !(get_present _ _ Hb). rewrite !bind_lift_ok. reflexivity.
Qed.

Lemma scores_printable_parts (result : value) :
  scores_printable result = true ->
  printable (coalesce (getProp result "overall_score") (VNum (Fin 0))) = true /\
  forall id key,
    In (id, key) BREAKDOWN ->
    printable (coalesce (getProp (or_else (getProp result "scores_breakdown") (VObj [])) key)
                 (VStr en_dash)) = true.
Proof.
  unfold scores_printable. intros Hp. apply andb_true_iff in Hp as [Ho Hb]. split.
  - now apply printable_coalesce.
  - intros id key Hin. apply printable_coalesce; [|reflexivity].
    rewrite forallb_forall in Hb. exact (Hb (id, key) Hin).
Qed.

Lemma succeeds_show_score (id : string) (score : value) :
  printable (coalesce score (VStr en_dash)) = true -> succeeds (show_score id score).
Proof.
  intros H w. unfold show_score. rewrite (set_textContent_printable _ _ H). reflexivity.
Qed.

(** Opening the block of the scores of a result whose scores can be printed:
    a sequence of writes. *)
Ltac open_scores H Hp :=
  let Ho := fresh "Ho" in
  let Hrow := fresh "Hrow" in
  destruct (scores_printable_parts _ Hp) as [Ho Hrow];
  rewrite (show_scores_eq _ H); cbv zeta; unfold show_score;
  rewrite (set_textContent_printable "overall-score" _ Ho),
    (set_textContent_printable "score-quality" _
       (Hrow "score-quality" "quality_score" (or_introl eq_refl))),
    (set_textContent_printable "score-seo" _
       (Hrow "score-seo" "seo_score" (or_intror (or_introl eq_refl)))),
    (set_textContent_printable "score-engagement" _
       (Hrow "score-engagement" "engagement_score"
          (or_intror (or_intror (or_introl eq_refl))))),
    (set_textContent_printable "score-structure" _
       (Hrow "score-structure" "structure_score"
          (or_intror (or_intror (or_intror (or_introl eq_refl))))));
  clear Ho Hrow.

Lemma show_scores_run (result : value) (w : World) :
  nullish result = false ->
  scores_printable result = true ->
  fst (show_scores result w) = Ok tt /\
  forall id key,
    In (id, key) BREAKDOWN ->
    dom (snd (show_scores result w)) id =
    score_element (getProp (or_else (getProp result "scores_breakdown") (VObj [])) key).
Proof.
  intros H Hp. open_scores H Hp.
  set (breakdown := or_else (getProp result "scores_breakdown") (VObj [])).
  run.
  destruct (score_section w) eqn:Hs; run; rewrite ?Hs; run.
  all: split; [reflexivity|].
  all: intros id key Hin; simpl in Hin.
  all: destruct Hin as [[= <- <-]|[[= <- <-]|[[= <- <-]|[[= <- <-]|[]]]]]; look; reflexivity.
Qed.

(** The block of the scores, when they can be printed, is a sequence of
    writes. *)
Lemma show_scores_writes (result : value) :
  nullish result = false ->
  scores_printable result = true ->
  show_scores result
  = let overallScore := coalesce (getProp result "overall_score") (VNum (Fin 0)) in
    let breakdown := or_else (getProp result "scores_breakdown") (VObj []) in
    let write id score :=
      on_element id
        (with_children (text_children (domString (coalesce score (VStr en_dash))))) ;;
      set_className id ("score-value " ++ getScoreClass (coalesce score (VNum (Fin 0)))) in
    on_element "overall-score" (with_children (text_children (domString overallScore))) ;;
    set_className "overall-score" ("score-big " ++ getScoreClass overallScore) ;;
    modify (fun w =>
      match score_section w with
      | Some scoreSection =>
          with_score_section
            (Some (with_className ("score-section " ++ getScoreClass overallScore)
                     scoreSection)) w
      | None => w
      end) ;;
    write "score-quality" (getProp breakdown "quality_score") ;;
    write "score-seo" (getProp breakdown "seo_score") ;;
    write "score-engagement" (getProp breakdown "engagement_score") ;;
    write "score-structure" (getProp breakdown "structure_score") ;;
    modify (fun w =>
      with_timers
        (timers w ++
         [(100, "score-bar-fill",
           NumberToString (num_min (ToNumber overallScore) (Fin 100)) ++ "%")]) w).
Proof.
  intros H Hp. open_scores H Hp. reflexivity.
Qed.

(** The blocks after the scores leave the elements of the breakdown alone. *)
Lemma details_keep_breakdown (id key : string) (result : value) :
  In (id, key) BREAKDOWN ->
  keeps id (show_issues result ;; show_checks result ;; show_hashtags result ;;
            show_optimized result ;; show_ctas result).
Proof.
  intros Hin. simpl in Hin.
  destruct Hin as [[= <- <-]|[[= <- <-]|[[= <- <-]|[[= <- <-]|[]]]]];
    repeat first [ apply keeps_show_issues; reflexivity
                 | apply keeps_show_checks; reflexivity
                 | apply keeps_show_hashtags; reflexivity
                 | apply keeps_show_optimized; reflexivity
                 | apply keeps_show_ctas; reflexivity
                 | apply keeps_bind; [|intros ?] ].
Qed.

Lemma show_result_breakdown (result : value) (w : World) (id key : string) :
  nullish result = false ->
  scores_printable result = true ->
  In (id, key) BREAKDOWN ->
  dom (snd (show_result result w)) id =
  score_element (getProp (or_else (getProp result "scores_breakdown") (VObj [])) key).
Proof.
  intros H Hp Hin. unfold show_result.
  rewrite (bind_succeeds _ _ _ (succeeds_on_element _ _)).
  rewrite (bind_succeeds _ _ _ (succeeds_on_element _ _)).
  rewrite bind_keeps by (intros ?; now apply details_keep_breakdown with (key := key)).
  now apply show_scores_run.
Qed.

Lemma safeGet_final_pack_empty :
  safeGet (VObj []) (VStr "final_output.final_hashtag_pack") (VArr []) = Ok (VArr []).
Proof. reflexivity. Qed.

Lemma show_scores_succeeds (result : value) :
  nullish result = false -> scores_printable result = true -> succeeds (show_scores result).
Proof.
  intros H Hp w. now apply show_scores_run.
Qed.

Lemma show_issues_empty (w : World) :
  fst (show_issues (VObj []) w) = Ok tt /\
  children (dom (snd (show_issues (VObj []) w)) "issues-list")
  = [Markup (muted "li" "No major issues found.")].
Proof.
  unfold show_issues. eval_block. split; reflexivity.
Qed.

Lemma show_checks_empty (w : World) :
  fst (show_checks (VObj []) w) = Ok tt /\
  children (dom (snd (show_checks (VObj []) w)) "grammar-summary")
  = [TextNode "Grammar: N/A"] /\
  children (dom (snd (show_checks (VObj []) w)) "tone-summary")
  = [TextNode "Tone: N/A"] /\
  children (dom (snd (show_checks (VObj []) w)) "cta-status")
  = [TextNode "CTA: N/A"].
Proof.
  unfold show_checks. eval_block. repeat split; reflexivity.
Qed.

Lemma show_hashtags_empty (w : World) :
  fst (show_hashtags (VObj []) w) = Ok tt /\
  children (dom (snd (show_hashtags (VObj []) w)) "tags-final")
  = [Markup (muted "span" "None")] /\
  children (dom (snd (show_hashtags (VObj []) w)) "tags-trending")
  = [Markup (muted "span" "None")].
Proof.
  unfold show_hashtags, renderChips. eval_block.
  rewrite safeGet_final_pack_empty. eval_block. repeat split; reflexivity.
Qed.

Lemma show_optimized_empty (w : World) :
  fst (show_optimized (VObj []) w) = Ok tt /\
  children (dom (snd (show_optimized (VObj []) w)) "optimized-title") = [] /\
  children (dom (snd (show_optimized (VObj []) w)) "optimized-content") = [].
Proof.
  unfold show_optimized. eval_block. repeat split; reflexivity.
Qed.

Lemma show_ctas_empty (w : World) :
  fst (show_ctas (VObj []) w) = Ok tt /\
  children (dom (snd (show_ctas (VObj []) w)) "cta-list")
  = [Markup (muted "li" "No CTA variants returned.")].
Proof.
  unfold show_ctas. eval_block. split; reflexivity.
Qed.

(** What follows the overall score in the block of the scores leaves its
    element alone. *)
Lemma keeps_show_score (id id' : string) (score : value) :
  String.eqb id id' = false -> keeps id (show_score id' score).
Proof.
  intros H. unfold show_score, set_textContent, set_className. repeat frame_step.
Qed.

Lemma show_scores_overall (result : value) (w : World) :
  nullish result = false ->
  printable (getProp result "overall_score") = true ->
  dom (snd (show_scores result w)) "overall-score" =
  let overallScore := coalesce (getProp result "overall_score") (VNum (Fin 0)) in
  {| children := text_children (domString overallScore);
     className := "score-big " ++ getScoreClass overallScore |}.
Proof.
  intros H Ho.
  assert (Hc : printable (coalesce (getProp result "overall_score") (VNum (Fin 0))) = true)
    by (now apply printable_coalesce).
  rewrite (show_scores_eq _ H). cbv zeta.
  rewrite (set_textContent_printable _ _ Hc). unfold set_className at 1.
  rewrite (bind_succeeds _ _ _ (succeeds_on_element _ _)).
  rewrite (bind_succeeds _ _ _ (succeeds_on_element _ _)).
  rewrite bind_keeps.
  - unfold modify. destruct (score_section _); cbn [snd dom with_score_section];
      run; look; reflexivity.
  - intros _.
    repeat first [ apply keeps_show_score; reflexivity
                 | apply keeps_modify; intros ?; reflexivity
                 | apply keeps_bind; [|intros ?] ].
Qed.

Ltac keeps_blocks :=
  repeat first [ apply keeps_show_issues; reflexivity
               | apply keeps_show_checks; reflexivity
               | apply keeps_show_hashtags; reflexivity
               | apply keeps_show_optimized; reflexivity
               | apply keeps_show_ctas; reflexivity
               | apply keeps_bind; [|intros ?] ].

Lemma list_items_made (f : value -> value) (items : list value) :
  forallb (fun x => printable (f x)) items = true ->
  Forall (fun x => list_item (f x) = Ok (Created "li" "" (domString (f x)))) items.
Proof.
  intros Hall. apply Forall_forall. intros x Hx.
  rewrite forallb_forall in Hall. unfold list_item. now rewrite (Hall x Hx).
Qed.

Lemma show_issues_items (result : value) (items : list value) (w : World) :
  nullish result = false ->
  getProp result "issues_found" = VArr items ->
  items <> [] ->
  forallb (fun issue => printable (issue_text issue)) items = true ->
  fst (show_issues result w) = Ok tt /\
  children (dom (snd (show_issues result w)) "issues-list")
  = map (fun issue => Created "li" "" (domString (issue_text issue))) items.
Proof.
  intros H Hf Hne Hall. unfold show_issues.
  rewrite (get_present _ _ H), Hf. eval_block.
  destruct items as [|x xs]; [congruence|].
  change (num_truthy (num_of_nat (length (x :: xs)))) with true.
  cbn [negb].
  match goal with
  | |- context [for_each _ _ ?w0] =>
      destruct (for_each_made "issues-list"
                  (fun issue => list_item (issue_text issue))
                  (fun issue => Created "li" "" (domString (issue_text issue)))
                  (x :: xs) w0 (list_items_made issue_text _ Hall)) as [Hok Hch]
  end.
  split; [exact Hok|]. rewrite Hch. reflexivity.
Qed.

(** Whatever the result, the populated state is shown and the empty state
    hidden. *)
Lemma show_result_shown (result : value) (w : World) :
  is_hidden (dom (snd (show_result result w)) "result-empty") = true /\
  is_hidden (dom (snd (show_result result w)) "result-content") = false.
Proof.
  assert (Hno : forall id, String.eqb id "score-quality" = false ->
                           String.eqb id "score-seo" = false ->
                           String.eqb id "score-engagement" = false ->
                           String.eqb id "score-structure" = false ->
                           forall key, ~ In (id, key) BREAKDOWN).
  { intros id Ha Hb Hc Hd key Hin. simpl in Hin.
    destruct Hin as [[= <- _]|[[= <- _]|[[= <- _]|[[= <- _]|[]]]]]; discriminate. }
  unfold show_result. split.
  - rewrite bind_keeps.
    + cbn [on_element modify snd dom with_dom]. unfold upd.
      rewrite String.eqb_refl. apply contains_add; reflexivity.
    + intros _. apply keeps_bind; [apply keeps_on_element; reflexivity|intros _].
      apply keeps_bind;
        [apply keeps_show_scores; [reflexivity|apply Hno; reflexivity]|intros _].
      keeps_blocks.
  - rewrite (bind_succeeds _ _ _ (succeeds_on_element _ _)).
    rewrite bind_keeps.
    + cbn [on_element modify snd dom with_dom]. unfold upd.
      rewrite String.eqb_refl. apply contains_remove.
    + intros _. apply keeps_bind;
        [apply keeps_show_scores; [reflexivity|apply Hno; reflexivity]|intros _].
      keeps_blocks.
Qed.


(** C5 (as the code has it). An entry that is an object and not null shows
    its [issue] field when that is truthy, else its [message] field when that
    is truthy, else the JSON text of the whole entry; a string shows as it is.
    A field that is there and falsy (an empty text, 0) is passed over.  When
    the scores of the result and the texts of the entries can be printed,
    each entry of the issues gives one list item, in order. *)
Theorem issue_normalization :
  (forall entry, is_object entry = true ->
     (truthy (getProp entry "issue") = true ->
        issue_text entry = getProp entry "issue") /\
     (truthy (getProp entry "issue") = false ->
      truthy (getProp entry "message") = true ->
        issue_text entry = getProp entry "message") /\
     (truthy (getProp entry "issue") = false ->
      truthy (getProp entry "message") = false ->
        exists dump, stringify entry = Some dump /\ issue_text entry = VStr dump)) /\
  (forall s, issue_text (VStr s) = VStr s /\ domString (issue_text (VStr s)) = s) /\
  (forall result items w,
     nullish result = false ->
     scores_printable result = true ->
     getProp result "issues_found" = VArr items ->
     items <> [] ->
     forallb (fun entry => printable (issue_text entry)) items = true ->
     children (dom (snd (show_result result w)) "issues-list")
     = map (fun entry => Created "li" "" (domString (issue_text entry))) items) /\
  issue_text (VObj [("issue", VStr "x"); ("message", VStr "y")]) = VStr "x" /\
  issue_text (VObj [("message", VStr "y")]) = VStr "y" /\
  (exists dump,
     issue_text (VObj [("foo", VStr "z")]) = VStr dump /\
     dump = "{" ++ dquote ++ "foo" ++ dquote ++ ":" ++ dquote ++ "z" ++ dquote ++ "}" /\
     includes "foo" dump = true /\ includes "z" dump = true) /\
  issue_text (VStr "plain") = VStr "plain".
Proof.
  split; [|split; [|split]].
  - intros entry Hobj. unfold issue_text, or_else. rewrite Hobj.
    split; [|split].
    + now intros ->.
    + now intros -> ->.
    + intros -> ->. unfold JSON_stringify.
      destruct entry; try discriminate; simpl; eexists; split; reflexivity.
  - intros s. split; [reflexivity|]. unfold issue_text, domString. reflexivity.
  - intros result items w H Hp Hf Hne Hall. unfold show_result.
    rewrite (bind_succeeds _ _ _ (succeeds_on_element _ _)).
    rewrite (bind_succeeds _ _ _ (succeeds_on_element _ _)).
    rewrite (bind_succeeds _ _ _ (show_scores_succeeds result H Hp)).
    rewrite bind_keeps by (intros ?; keeps_blocks).
    now apply show_issues_items.
  - repeat match goal with |- _ /\ _ => split end; try reflexivity.
    eexists. repeat match goal with |- _ /\ _ => split end; reflexivity.
Qed.

(** C6. When the field [raw_json] of the payload holds an object (or any
    truthy value), the handler shows that value and not the top level; when
    the payload has no such field, or the field is falsy, it shows the top
    level. *)
Theorem raw_json_precedence (data : value) (w : World) :
  nullish data = false ->
  (forall nested,
      getProp data "raw_json" = nested -> is_object nested = true ->
      show_response data w = show_result nested w) /\
  (forall nested,
      getProp data "raw_json" = nested -> truthy nested = true ->
      show_response data w = show_result nested w) /\
  (forall props,
      data = VObj props -> ~ In "raw_json" (map fst props) ->
      show_response data w = show_result data w) /\
  (truthy (getProp data "raw_json") = false ->
   show_response data w = show_result data w).
Proof.
  intros H. rewrite (show_response_eq data w H). unfold or_else.
  repeat match goal with |- _ /\ _ => split end.
  - intros nested -> Hobj.
    assert (Ht : truthy nested = true) by (destruct nested; try discriminate; reflexivity).
    now rewrite Ht.
  - intros nested -> Ht. now rewrite Ht.
  - intros props -> Hno. simpl. now rewrite (lookup_absent _ _ Hno).
  - now intros ->.
Qed.

(** C7 (as the code has it). For each score of the breakdown, on every
    payload that is not null and whose scores can be printed: when the value
    is absent or null, the element
    shows the placeholder and carries the class of the band of 0; when it is
    present, 0 included, the element shows the value and carries the class of
    its band.  The text tells a score of 0 from a missing score; the class
    does not. *)
Theorem breakdown_rendering (data : value) (w : World) (id key : string) :
  nullish data = false ->
  scores_printable (or_else (getProp data "raw_json") data) = true ->
  In (id, key) BREAKDOWN ->
  let result := or_else (getProp data "raw_json") data in
  let score := getProp (or_else (getProp result "scores_breakdown") (VObj [])) key in
  let e := dom (snd (show_response data w)) id in
  (nullish score = true ->
     children e = [TextNode en_dash] /\ className e = "score-value poor") /\
  (nullish score = false ->
     children e = text_children (ToString score) /\
     className e = "score-value " ++ getScoreClass score) /\
  (score = VNum (Fin 0) ->
     children e = [TextNode "0"] /\ className e = "score-value poor").
Proof.
  intros H Hp Hin. cbv zeta. rewrite (show_response_eq data w H).
  assert (Hr : nullish (or_else (getProp data "raw_json") data) = false)
    by (now apply or_else_present).
  rewrite (show_result_breakdown _ w id key Hr Hp Hin).
  unfold score_element, coalesce, domString.
  split; [|split].
  - intros ->. split; reflexivity.
  - intros Hn. rewrite !Hn. split; reflexivity.
  - intros ->. split; reflexivity.
Qed.

End Normalizer.

(* ================================================================= *)
(** ** The submission *)

Section Orchestrator.
Context {E : Engine}.

Lemma split_hashtags_ascii (raw : string) (pieces : list string) :
  (0 <? js_length raw)%nat = true ->
  str_split "," raw = pieces ->
  Forall (fun p => is_ascii p = true) pieces ->
  split_hashtags raw = filter (fun s => negb (str_empty s)) (map ascii_trim pieces).
Proof.
  intros Hlen Hsplit Hall. unfold split_hashtags. rewrite Hlen, Hsplit. f_equal.
  clear Hlen Hsplit. induction Hall as [|p ps Hp _ IH]; [reflexivity|].
  simpl. now rewrite (trim_ascii p Hp), IH.
Qed.

Lemma split_hashtags_example :
  split_hashtags (trim "#SNS Square, #random") = ["#SNS Square"; "#random"].
Proof.
  rewrite (trim_ascii "#SNS Square, #random" eq_refl).
  change (ascii_trim "#SNS Square, #random") with "#SNS Square, #random".
  rewrite (split_hashtags_ascii _ ["#SNS Square"; " #random"]);
    [reflexivity|reflexivity|reflexivity|now repeat constructor].
Qed.

Lemma split_hashtags_twice : split_hashtags "#a,#a" = ["#a"; "#a"].
Proof.
  rewrite (split_hashtags_ascii _ ["#a"; "#a"]);
    [reflexivity|reflexivity|reflexivity|now repeat constructor].
Qed.

Lemma quiet_setLoading (b : bool) : sends [] (setLoading b).
Proof. unfold setLoading. quiet. Qed.

Lemma sends_fetch (net : Request -> FetchResult) (req : Request) :
  sends [req] (fetch net req).
Proof.
  intros w. unfold fetch. destruct (net req); reflexivity.
Qed.

(** A submission with content calls [fetch] once, whatever the transport
    answers; a submission without content does not call it. *)
Lemma submit_sends (net : Request -> FetchResult) (inp : Inputs) :
  sends (if str_empty (trim (content inp)) then []
         else [analyze_request (API_BASE (hostname inp)) (build_payload inp)])
        (submit net inp).
Proof.
  unfold submit. destruct (str_empty (trim (content inp))).
  - quiet.
  - apply quiet_then_sends; [quiet|intros w; now eexists|intros _].
    apply quiet_then_sends; [quiet|intros w; now eexists|intros _].
    apply quiet_then_sends; [apply quiet_setLoading| |intros _].
    { intros w. exists tt. unfold setLoading. reflexivity. }
    apply sends_try_catch_finally.
    + apply sends_then_quiet; [apply sends_fetch|].
      intros [ok b]. destruct ok; cbn [negb].
      * apply quiet_bind; [apply quiet_lift|intros data]. apply quiet_show_response.
      * quiet.
    + intros e. quiet.
    + apply quiet_setLoading.
Qed.

(** C8 (as the code has it). The hashtags of the request are the pieces of the
    field between its commas, each trimmed, the empty ones dropped, in the
    order of the field; nothing removes a repeated tag.  The field
    "#SNS Square, #random" gives exactly ["#SNS Square", "#random"], and a
    submission with content sends the payload that holds them. *)
Theorem split_hashtags_spec (raw : string) :
  Forall (fun x => x <> "" /\ trim x = x /\
                   exists p, In p (str_split "," raw) /\ x = trim p)
         (split_hashtags raw) /\
  ((0 < js_length raw)%nat ->
   split_hashtags raw
   = filter (fun s => negb (str_empty s)) (map trim (str_split "," raw))) /\
  split_hashtags (trim "#SNS Square, #random") = ["#SNS Square"; "#random"] /\
  (forall inp,
      hashtags inp = "#SNS Square, #random" ->
      getProp (build_payload inp) "hashtags"
      = VArr [VStr "#SNS Square"; VStr "#random"]) /\
  (forall net inp w,
      str_empty (trim (content inp)) = false ->
      fetches (snd (submit net inp w))
      = analyze_request (API_BASE (hostname inp)) (build_payload inp) :: fetches w) /\
  split_hashtags "#a,#a" = ["#a"; "#a"].
Proof.
  repeat match goal with |- _ /\ _ => split end.
  - unfold split_hashtags. destruct (0 <? js_length raw)%nat; [|constructor].
    apply Forall_forall. intros x Hx. apply filter_In in Hx as [Hin Hne].
    apply in_map_iff in Hin as [p [<- Hp]].
    repeat match goal with |- _ /\ _ => split end.
    + intros Heq. rewrite Heq in Hne. discriminate.
    + apply trim_trim.
    + now exists p.
  - intros Hlen. unfold split_hashtags.
    apply Nat.ltb_lt in Hlen. now rewrite Hlen.
  - exact split_hashtags_example.
  - intros inp Hh. unfold build_payload.
    cbn [getProp lookup String.eqb Ascii.eqb Bool.eqb].
    now rewrite Hh, split_hashtags_example.
  - intros net inp w Hc. rewrite (submit_sends net inp w). now rewrite Hc.
  - exact split_hashtags_twice.
Qed.

(** C9. When the content is empty once trimmed, the handler ends normally with
    the message in the error box, the box not hidden, no other element
    touched, and no call of [fetch]. *)
Theorem empty_content_rejected (net : Request -> FetchResult) (inp : Inputs) (w : World) :
  trim (content inp) = "" ->
  let w' := snd (submit net inp w) in
  fst (submit net inp w) = Ok tt /\
  children (dom w' "error-box") = [TextNode "Please paste some content to analyze."] /\
  is_hidden (dom w' "error-box") = false /\
  fetches w' = fetches w /\
  timers w' = timers w /\
  (forall id, String.eqb id "error-box" = false -> dom w' id = dom w id).
Proof.
  intros Hc. cbv zeta. unfold submit. rewrite Hc. cbn [str_empty]. run.
  repeat match goal with |- _ /\ _ => split end; try reflexivity.
  - look. unfold is_hidden. apply contains_remove.
  - intros id Hid. unfold upd. now rewrite Hid.
Qed.

End Orchestrator.

(* ================================================================= *)
(** ** Closed instances *)


Lemma isMandatoryHashtag_iff_witness :
  exists m, In m MANDATORY_HASHTAGS /\
            normalize (E := ascii_engine) "SNS-iHub" = normalize (E := ascii_engine) m.
Proof.
  destruct (proj1 (isMandatoryHashtag_iff (E := ascii_engine)) "SNS-iHub")
    as [b [Hb [Hiff _]]].
  apply Hiff. now injection Hb as <-.
Defined.


Lemma safeGet_falsy_inner_segment_witness :
  safeGet (E := ascii_engine) (VObj [("a", VNum (Fin 0))]) (VStr "a.b") (VStr "none")
  = Ok (VStr "none").
Proof.
  apply (proj1 (safeGet_falsy_inner_segment (E := ascii_engine)
                  (VObj [("a", VNum (Fin 0))]) "a.b" (VStr "none"))
           ["a"] "b" [] (VNum (Fin 0)));
    reflexivity.
Defined.


Lemma issue_normalization_witness :
  children (dom (snd (show_result (E := ascii_engine) two_issues blank_page)) "issues-list")
  = [Created "li" "" "plain"; Created "li" "" "y"].
Proof.
  apply (proj1 (proj2 (proj2 (issue_normalization (E := ascii_engine))))
           two_issues [VStr "plain"; VObj [("message", VStr "y")]] blank_page).
  - reflexivity.
  - reflexivity.
  - reflexivity.
  - discriminate.
  - reflexivity.
Defined.

Lemma raw_json_precedence_witness :
  show_response (E := ascii_engine) wrapped_payload blank_page
  = show_result (E := ascii_engine) (VObj [("overall_score", VNum (Fin 82))]) blank_page.
Proof.
  apply (proj1 (raw_json_precedence (E := ascii_engine) wrapped_payload blank_page eq_refl));
    reflexivity.
Defined.

Lemma breakdown_rendering_witness :
  children (dom (snd (show_response (E := ascii_engine) zero_quality blank_page))
              "score-quality") = [TextNode "0"] /\
  className (dom (snd (show_response (E := ascii_engine) zero_quality blank_page))
               "score-quality") = "score-value poor".
Proof.
  apply (proj2 (proj2 (breakdown_rendering (E := ascii_engine) zero_quality blank_page
                         "score-quality" "quality_score" eq_refl eq_refl
                         (or_introl eq_refl)))).
  reflexivity.
Defined.

Lemma split_hashtags_spec_witness :
  split_hashtags (E := ascii_engine) "#a, ,#b"
  = filter (fun s => negb (str_empty s))
      (map (trim (Engine := ascii_engine)) (str_split "," "#a, ,#b")).
Proof.
  apply (proj1 (proj2 (split_hashtags_spec (E := ascii_engine) "#a, ,#b"))).
  repeat constructor.
Defined.

Lemma empty_content_rejected_witness :
  fetches (snd (submit (E := ascii_engine)
                  (fun _ => Response true (JsonBody (VObj []))) blank_form blank_page))
  = [].
Proof.
  apply (proj1 (proj2 (proj2 (proj2
           (empty_content_rejected (E := ascii_engine)
              (fun _ => Response true (JsonBody (VObj []))) blank_form blank_page
              eq_refl))))).
Defined.

(** The score of the breakdown that the empty object lacks carries the class
    of the band "poor", the very class of a score of 0. *)
Lemma missing_score_carries_band :
  getProp (VObj []) "scores_breakdown" = VUndefined /\
  className (dom (snd (show_response (E := ascii_engine) (VObj []) blank_page))
               "score-quality") = "score-value poor" /\
  In "poor" BANDS /\
  className (dom (snd (show_response (E := ascii_engine) zero_quality blank_page))
               "score-quality")
  = className (dom (snd (show_response (E := ascii_engine) (VObj []) blank_page))
                 "score-quality").
Proof.
  assert (Hq : In ("score-quality", "quality_score") BREAKDOWN) by (now left).
  rewrite (show_response_eq (E := ascii_engine) (VObj []) blank_page eq_refl).
  rewrite (show_response_eq (E := ascii_engine) zero_quality blank_page eq_refl).
  change (or_else (getProp (VObj []) "raw_json") (VObj [])) with (VObj []).
  change (or_else (getProp zero_quality "raw_json") zero_quality) with zero_quality.
  rewrite (show_result_breakdown (E := ascii_engine) (VObj []) blank_page _ _
             eq_refl eq_refl Hq).
  rewrite (show_result_breakdown (E := ascii_engine) zero_quality blank_page _ _
             eq_refl eq_refl Hq).
  repeat match goal with |- _ /\ _ => split end; try reflexivity.
  now left.
Qed.



(** An entry with an [issue] field that is the empty text shows its
    [message]: the field is there and is passed over. *)
Lemma empty_issue_field_passed_over :
  getProp (VObj [("issue", VStr ""); ("message", VStr "m")]) "issue" = VStr "" /\
  issue_text (E := ascii_engine) (VObj [("issue", VStr ""); ("message", VStr "m")])
  = VStr "m" /\
  issue_text (E := ascii_engine) (VObj [("issue", VStr ""); ("message", VStr "m")])
  <> VStr "".
Proof.
  repeat match goal with |- _ /\ _ => split end; try reflexivity.
  discriminate.
Qed.

(** A tag written twice in the field stands twice in the request. *)
Lemma split_hashtags_keeps_duplicates :
  split_hashtags (E := ascii_engine) "#a,#a" = ["#a"; "#a"] /\
  ~ NoDup (split_hashtags (E := ascii_engine) "#a,#a").
Proof.
  assert (H : split_hashtags (E := ascii_engine) "#a,#a" = ["#a"; "#a"]) by reflexivity.
  split; [exact H|]. rewrite H. intros Hnd.
  inversion Hnd as [|? ? Hnot _]. apply Hnot. now left.
Qed.

(* ================================================================= *)
(** ** Further properties of the pure functions *)

Section PureFunctions.
Context {E : Engine}.

Ltac split_ranks :=
  rewrite !getScoreClass_fin;
  repeat match goal with
         | |- context [Qle_bool ?a ?b] =>
             let H := fresh "H" in
             destruct (Qle_bool a b) eqn:H;
             [apply Qle_bool_iff in H | apply Qle_bool_false in H]
         end;
  try (cbn; lia); try reflexivity; exfalso; lra.

(** X1. The class of a score never goes down when the score goes up, and
    there is no upper bound: every score from 90 on is excellent, 100 and
    above included. *)
Theorem getScoreClass_monotone (p q : Q) :
  (p <= q)%Q ->
  (band_rank (getScoreClass (VNum (Fin p))) <= band_rank (getScoreClass (VNum (Fin q))))%nat /\
  ((90 <= p)%Q -> getScoreClass (VNum (Fin q)) = "excellent").
Proof.
  intros Hpq. split; [|intros Hp]; split_ranks.
Qed.

(** X2. On every value that has a primitive (an object with a key named
    toString has none: comparing it raises), [getScoreClass] answers one of
    the four classes, and poor when the value is not a number; so undefined
    and NaN are poor, as is null, whose number is 0, and plus infinity is
    excellent. *)
Theorem getScoreClass_always_a_band (v : value) :
  printable v = true ->
  In (getScoreClass v) BANDS /\
  (ToNumber v = NaN -> getScoreClass v = "poor") /\
  getScoreClass VUndefined = "poor" /\
  getScoreClass VNull = "poor" /\
  getScoreClass (VNum NaN) = "poor" /\
  getScoreClass (VNum (Infinity false)) = "excellent".
Proof.
  intros _.
  repeat match goal with |- _ /\ _ => split end; try reflexivity.
  - unfold getScoreClass, BANDS.
    destruct (value_ge v (Fin 90)); [simpl; tauto|].
    destruct (value_ge v (Fin 75)); [simpl; tauto|].
    destruct (value_ge v (Fin 60)); simpl; tauto.
  - intros Hn. unfold getScoreClass, value_ge. now rewrite Hn.
Qed.

Lemma lower_char_idem (c : ascii) : lower_char (lower_char c) = lower_char c.
Proof. destruct c as [[] [] [] [] [] [] [] []]; reflexivity. Qed.

Lemma lower_char_ascii (c : ascii) :
  is_ascii_char c = true -> is_ascii_char (lower_char c) = true.
Proof.
  destruct c as [[] [] [] [] [] [] [] []]; intros H; try reflexivity; discriminate H.
Qed.

Lemma ascii_lower_idem (s : string) : ascii_lower (ascii_lower s) = ascii_lower s.
Proof.
  induction s as [|c s IH]; [reflexivity|].
  unfold ascii_lower in *. simpl. now rewrite lower_char_idem, IH.
Qed.

Lemma ascii_lower_ascii (s : string) :
  is_ascii s = true -> is_ascii (ascii_lower s) = true.
Proof.
  unfold ascii_lower. induction s as [|c s IH]; intros H; [reflexivity|].
  simpl in *. apply andb_true_iff in H as [Hc Hs].
  now rewrite (lower_char_ascii c Hc), (IH Hs).
Qed.

Lemma is_ascii_app (a b : string) :
  is_ascii (a ++ b) = is_ascii a && is_ascii b.
Proof.
  induction a as [|c a IH]; [reflexivity|].
  simpl. now rewrite IH, andb_assoc.
Qed.

Lemma str_map_app (f : ascii -> ascii) (a b : string) :
  str_map f (a ++ b) = str_map f a ++ str_map f b.
Proof.
  induction a as [|c a IH]; [reflexivity|]. simpl. now rewrite IH.
Qed.

Lemma str_filter_app (p : ascii -> bool) (a b : string) :
  str_filter p (a ++ b) = str_filter p a ++ str_filter p b.
Proof.
  induction a as [|c a IH]; [reflexivity|].
  simpl. destruct (p c); simpl; now rewrite IH.
Qed.

(** The normalized form of an ASCII text does not change when a character
    that is neither a letter nor a digit is put in it. *)
Lemma normal_form_insert (a b : string) (c : ascii) :
  class_az09 (lower_char c) = false ->
  replace_non_az09 (ascii_lower (a ++ String c b))
  = replace_non_az09 (ascii_lower (a ++ b)).
Proof.
  intros Hc. unfold replace_non_az09, ascii_lower.
  rewrite !str_map_app, !str_filter_app. simpl. now rewrite Hc.
Qed.

Lemma isMandatoryHashtag_ascii (t : string) :
  is_ascii t = true ->
  isMandatoryHashtag (VStr t) =
  Ok (existsb (fun m => String.eqb (replace_non_az09 (toLowerCase m))
                          (replace_non_az09 (ascii_lower t)))
        MANDATORY_HASHTAGS).
Proof.
  intros H. unfold isMandatoryHashtag, toLowerCase_method, obind.
  now rewrite (toLowerCase_ascii t H).
Qed.

(** X3. On ASCII text the answer of [isMandatoryHashtag] does not depend on
    the characters that are neither letters nor digits, nor on the case of
    the letters. *)
Theorem isMandatoryHashtag_ignores_marks_and_case (a b : string) (c : ascii) :
  is_ascii a = true -> is_ascii b = true -> is_ascii_char c = true ->
  class_az09 (lower_char c) = false ->
  isMandatoryHashtag (VStr (a ++ String c b)) = isMandatoryHashtag (VStr (a ++ b)) /\
  isMandatoryHashtag (VStr (ascii_lower (a ++ b))) = isMandatoryHashtag (VStr (a ++ b)).
Proof.
  intros Ha Hb Hc Hmark.
  assert (Hab : is_ascii (a ++ b) = true) by (now rewrite is_ascii_app, Ha, Hb).
  assert (Hacb : is_ascii (a ++ String c b) = true).
  { rewrite is_ascii_app. simpl. now rewrite Ha, Hb, Hc. }
  split.
  - rewrite (isMandatoryHashtag_ascii _ Hacb), (isMandatoryHashtag_ascii _ Hab).
    now rewrite (normal_form_insert a b c Hmark).
  - rewrite (isMandatoryHashtag_ascii _ (ascii_lower_ascii _ Hab)),
      (isMandatoryHashtag_ascii _ Hab).
    now rewrite ascii_lower_idem.
Qed.

Lemma isMandatoryHashtag_throws (tag : value) :
  is_string tag = false -> isMandatoryHashtag tag = Throw (TypeError "toLowerCase").
Proof.
  intros H. destruct tag; try reflexivity. discriminate H.
Qed.

(** X4. A tag that is not a string (a number, a boolean, null, an object)
    makes [isMandatoryHashtag] raise a TypeError, and so does the chip of an
    item that is neither a string nor an object. *)
Theorem isMandatoryHashtag_not_a_string (tag : value) :
  is_string tag = false ->
  isMandatoryHashtag tag = Throw (TypeError "toLowerCase") /\
  (is_object tag = false ->
   forall trending, chip trending tag = Throw (TypeError "toLowerCase")).
Proof.
  intros Hs. split; [now apply isMandatoryHashtag_throws|].
  intros Ho trending. unfold chip. now rewrite Ho, (isMandatoryHashtag_throws tag Hs).
Qed.

(** X5. With a fallback that is neither null nor undefined, [safeGet] never
    returns null or undefined; a path that is not a string gives the
    fallback. *)
Theorem safeGet_result_present (obj path fallback v : value) :
  nullish fallback = false ->
  safeGet obj path fallback = Ok v ->
  nullish v = false /\
  (is_string path = false -> v = fallback).
Proof.
  intros Hf. assert (Hd : default_param fallback VNull = fallback)
    by (destruct fallback; try reflexivity; discriminate Hf).
  unfold safeGet. rewrite Hd.
  destruct path; simpl; intros [= <-]; try (split; [exact Hf|reflexivity]).
  split; [|discriminate].
  unfold coalesce.
  destruct (nullish (fold_left safeGet_step (str_split "." s) obj)) eqn:Hn; assumption.
Qed.

Lemma stringify_strings (l : list string) :
  map (fun x => match stringify x with Some t => t | None => "null" end) (map VStr l)
  = map quote l.
Proof.
  induction l as [|x l IH]; [reflexivity|]. simpl. now rewrite IH.
Qed.

Lemma stringify_or_null (s : string) :
  stringify (or_null s) = Some (json_optional s).
Proof. destruct s; reflexivity. Qed.

(** X6. The body of the request is the JSON text of an object with the seven
    keys in the order of the literal: an optional field that is blank once
    trimmed is written null, never left out, and the hashtags are an array of
    strings.  The address is the local server's on localhost and 127.0.0.1,
    and relative to the page elsewhere. *)
Theorem payload_json (inp : Inputs) :
  body (analyze_request (API_BASE (hostname inp)) (build_payload inp))
  = VStr (payload_text inp) /\
  url (analyze_request (API_BASE (hostname inp)) (build_payload inp))
  = (if String.eqb (hostname inp) "localhost" || String.eqb (hostname inp) "127.0.0.1"
     then "http://localhost:8000/analyze" else "/analyze").
Proof.
  split.
  - unfold analyze_request, body, JSON_stringify, build_payload.
    cbn [stringify flat_map].
    rewrite !stringify_or_null, stringify_strings. reflexivity.
  - unfold analyze_request, url, API_BASE.
    destruct (String.eqb (hostname inp) "localhost" || String.eqb (hostname inp) "127.0.0.1");
      reflexivity.
Qed.

End PureFunctions.

(* ================================================================= *)
(** ** Statements and the parts of the browser they leave alone *)

Section Parts.

Lemma leaves_ret {A B : Type} (part : World -> B) (a : A) : leaves part (ret a).
Proof. intros w. reflexivity. Qed.

Lemma leaves_throw {A B : Type} (part : World -> B) (e : exn) : leaves part (@throw A e).
Proof. intros w. reflexivity. Qed.

Lemma leaves_lift {A B : Type} (part : World -> B) (o : Outcome A) : leaves part (lift o).
Proof. intros w. reflexivity. Qed.

Lemma leaves_modify {B : Type} (part : World -> B) (f : World -> World) :
  (forall w, part (f w) = part w) -> leaves part (modify f).
Proof. intros H w. exact (H w). Qed.

Lemma leaves_bind {A B C : Type} (part : World -> C) (m : M A) (k : A -> M B) :
  leaves part m -> (forall a, leaves part (k a)) -> leaves part (bind m k).
Proof.
  intros Hm Hk w. unfold bind. specialize (Hm w).
  destruct (m w) as [[a|e] w']; simpl in *; [rewrite Hk|]; exact Hm.
Qed.

Lemma leaves_for_each {A B : Type} (part : World -> B) (f : A -> M unit) (l : list A) :
  (forall x, leaves part (f x)) -> leaves part (for_each f l).
Proof.
  intros Hf. induction l as [|x l IH]; simpl.
  - apply leaves_ret.
  - apply leaves_bind; [apply Hf|intros _; exact IH].
Qed.

(** What follows [m] in a sequence does not show on a part it leaves. *)
Lemma bind_leaves {A B C : Type} (part : World -> C) (m : M A) (k : A -> M B) (w : World) :
  (forall a, leaves part (k a)) ->
  part (snd (bind m k w)) = part (snd (m w)).
Proof.
  intros Hk. unfold bind. destruct (m w) as [[a|e] w']; simpl; [apply Hk|reflexivity].
Qed.

(** Nothing runs after a statement that raises. *)
Lemma bind_throws {A B : Type} (m : M A) (k : A -> M B) (w : World) (e : exn) :
  fst (m w) = Throw e -> bind m k w = (Throw e, snd (m w)).
Proof.
  unfold bind. destruct (m w) as [[a|e'] w']; simpl; [discriminate|].
  now intros [= ->].
Qed.

(** When the handler of a [try] cannot raise, the statement ends as its
    [finally] block does, run after the body or after the handler. *)
Lemma try_catch_finally_run (body : M unit) (handler : exn -> M unit) (final : M unit)
      (w : World) :
  (forall e, succeeds (handler e)) ->
  try_catch_finally body handler final w
  = final (match fst (body w) with
           | Ok _ => snd (body w)
           | Throw e => snd (handler e (snd (body w)))
           end).
Proof.
  intros Hh. unfold try_catch_finally.
  destruct (body w) as [[u|e] w1]; simpl; [reflexivity|].
  specialize (Hh e w1). destruct (handler e w1) as [[u|e'] w2]; simpl in *;
    [reflexivity|discriminate].
Qed.

Lemma or_else_falsy (a b : value) : truthy a = false -> or_else a b = b.
Proof. intros H. unfold or_else. now rewrite H. Qed.

Lemma or_else_truthy (a b : value) : truthy a = true -> or_else a b = a.
Proof. intros H. unfold or_else. now rewrite H. Qed.

Lemma append_empty (s : string) : s ++ "" = s.
Proof. induction s as [|c s IH]; [reflexivity|]. simpl. now rewrite IH. Qed.

(** An array with an entry has a truthy length. *)
Lemma truthy_length (x : value) (xs : list value) :
  truthy (getProp (VArr (x :: xs)) "length") = true.
Proof.
  cbn [getProp String.eqb Ascii.eqb Bool.eqb truthy length].
  unfold num_of_nat, num_truthy, inject_Z, Qeq_bool. cbn [Qnum Qden].
  rewrite Z.mul_1_r. destruct (Z.of_nat (S (length xs))) eqn:Hz; try reflexivity.
  lia.
Qed.

End Parts.

Ltac leaves_step :=
  first
    [ apply leaves_ret
    | apply leaves_throw
    | apply leaves_lift
    | apply leaves_modify; intros ?; try destruct (score_section _); reflexivity
    | apply leaves_for_each; intros ?
    | apply leaves_bind; [|intros ?]
    | match goal with
      | |- leaves _ (if ?c then _ else _) => destruct c
      | |- leaves _ (forEach ?xs _) => destruct xs; cbn [forEach]
      end ].

(* ================================================================= *)
(** ** Further properties of the response on the page *)

Section Blocks.
Context {E : Engine}.

Ltac eval_stmt :=
  cbn [forEach for_each get getProp lookup nullish truthy or_else coalesce
       negb orb andb obind num_truthy str_empty String.eqb Ascii.eqb Bool.eqb
       bind lift modify on_element set_textContent set_className set_innerHTML
       appendChild show_score ret throw fst snd printable template list_item
       dom score_section timers console fetches
       with_dom with_timers with_score_section with_console with_fetches].

Ltac keeps_details :=
  repeat first [ apply keeps_show_issues; reflexivity
               | apply keeps_show_checks; reflexivity
               | apply keeps_show_hashtags; reflexivity
               | apply keeps_show_optimized; reflexivity
               | apply keeps_show_ctas; reflexivity
               | apply keeps_bind; [|intros ?] ].

Ltac members :=
  repeat match goal with
         | H : _ \/ _ |- _ => destruct H
         | H : False |- _ => destruct H
         end.

Lemma leaves_forEach {B : Type} (part : World -> B) (xs : value) (f : value -> M unit) :
  (forall x, leaves part (f x)) -> leaves part (forEach xs f).
Proof.
  intros Hf. destruct xs; simpl; try apply leaves_throw. now apply leaves_for_each.
Qed.

(** The blocks after the scores act on the elements of the page alone. *)
Lemma leaves_details {B : Type} (part : World -> B) (result : value) :
  (forall d w, part (with_dom d w) = part w) ->
  leaves part (show_issues result ;; show_checks result ;; show_hashtags result ;;
               show_optimized result ;; show_ctas result).
Proof.
  intros Hp.
  assert (Hon : forall id f, leaves part (on_element id f)).
  { intros id f w. apply Hp. }
  unfold show_issues, show_checks, show_hashtags, show_optimized, show_ctas, renderChips,
    set_textContent, set_innerHTML, set_className, appendChild.
  repeat first [ apply Hon
               | apply leaves_forEach; intros ?
               | apply leaves_ret | apply leaves_throw | apply leaves_lift
               | apply leaves_bind; [|intros ?]
               | match goal with
                 | |- leaves _ (if ?c then _ else _) => destruct c
                 end ].
Qed.

(** *** Scores *)

Lemma leaves_show_score {B : Type} (part : World -> B) (id : string) (score : value) :
  (forall d w, part (with_dom d w) = part w) -> leaves part (show_score id score).
Proof.
  intros Hp. unfold show_score, set_textContent, set_className, on_element.
  repeat first [ apply leaves_modify; intros ?; apply Hp | leaves_step ].
Qed.

(** The element of class score-section and the console after the block of the
    scores, whether or not the breakdown can be printed. *)
Lemma show_scores_section (result : value) (w : World) :
  nullish result = false ->
  printable (getProp result "overall_score") = true ->
  let overallScore := coalesce (getProp result "overall_score") (VNum (Fin 0)) in
  score_section (snd (show_scores result w))
  = option_map (with_className ("score-section " ++ getScoreClass overallScore))
      (score_section w) /\
  console (snd (show_scores result w)) = console w.
Proof.
  intros H Ho.
  assert (Hc : printable (coalesce (getProp result "overall_score") (VNum (Fin 0))) = true)
    by (now apply printable_coalesce).
  cbv zeta. rewrite (show_scores_eq _ H). cbv zeta.
  rewrite (set_textContent_printable _ _ Hc).
  split.
  all: unfold set_className at 1.
  all: rewrite (bind_succeeds _ _ _ (succeeds_on_element _ _)).
  all: rewrite (bind_succeeds _ _ _ (succeeds_on_element _ _)).
  - rewrite (bind_leaves score_section).
    + run. destruct (score_section w) eqn:Hs; run; rewrite ?Hs; reflexivity.
    + intros _.
      repeat first [ apply leaves_show_score; reflexivity
                   | apply leaves_modify; intros ?; reflexivity
                   | apply leaves_bind; [|intros ?] ].
  - rewrite (bind_leaves console).
    + run. destruct (score_section w) eqn:Hs; run; rewrite ?Hs; reflexivity.
    + intros _.
      repeat first [ apply leaves_show_score; reflexivity
                   | apply leaves_modify; intros ?; reflexivity
                   | apply leaves_bind; [|intros ?] ].
Qed.

Lemma show_scores_timers (result : value) (w : World) :
  nullish result = false ->
  scores_printable result = true ->
  timers (snd (show_scores result w))
  = (timers w ++
     [(100, "score-bar-fill",
       bar_width (coalesce (getProp result "overall_score") (VNum (Fin 0))))])%list.
Proof.
  intros H Hp. rewrite (show_scores_writes _ H Hp). cbv zeta. unfold bar_width. run.
  destruct (score_section w) eqn:Hs; run; rewrite ?Hs; reflexivity.
Qed.

Lemma show_result_scores (result : value) (w : World) :
  nullish result = false ->
  printable (getProp result "overall_score") = true ->
  let overallScore := coalesce (getProp result "overall_score") (VNum (Fin 0)) in
  let w' := snd (show_result result w) in
  dom w' "overall-score"
  = {| children := text_children (domString overallScore);
       className := "score-big " ++ getScoreClass overallScore |} /\
  score_section w'
  = option_map (with_className ("score-section " ++ getScoreClass overallScore))
      (score_section w) /\
  console w' = console w /\
  (scores_printable result = true ->
   timers w' = (timers w ++ [(100, "score-bar-fill", bar_width overallScore)])%list).
Proof.
  intros H Ho. cbv zeta. unfold show_result.
  rewrite (bind_succeeds _ _ _ (succeeds_on_element _ _)).
  rewrite (bind_succeeds _ _ _ (succeeds_on_element _ _)).
  set (w2 := snd (on_element "result-content" _ _)).
  assert (Hw2 : timers w2 = timers w /\ score_section w2 = score_section w /\
                console w2 = console w) by (repeat split; reflexivity).
  destruct Hw2 as [Ht [Hs Hc]].
  destruct (show_scores_section result w2 H Ho) as [P2 P3].
  repeat match goal with |- _ /\ _ => split end.
  - rewrite bind_keeps by (intros _; keeps_details).
    now apply show_scores_overall.
  - rewrite (bind_leaves score_section) by (intros _; now apply leaves_details).
    now rewrite P2, Hs.
  - rewrite (bind_leaves console) by (intros _; now apply leaves_details).
    now rewrite P3, Hc.
  - intros Hp.
    rewrite (bind_leaves timers) by (intros _; now apply leaves_details).
    now rewrite (show_scores_timers result w2 H Hp), Ht.
Qed.

(** X7. On every payload that is not null and whose overall score can be
    printed, whether or not a later statement raises: the overall score shows
    the value, or 0 when it is absent or null, with the class of its band;
    the element of class score-section takes the same band when the page has
    one and is not made when it has none; nothing is logged.  When the scores
    of the breakdown can be printed too, one timer for the score bar is
    set. *)
Theorem overall_score_rendering (data : value) (w : World) :
  nullish data = false ->
  printable (getProp (or_else (getProp data "raw_json") data) "overall_score") = true ->
  let result := or_else (getProp data "raw_json") data in
  let overallScore := coalesce (getProp result "overall_score") (VNum (Fin 0)) in
  let w' := snd (show_response data w) in
  dom w' "overall-score"
  = {| children := text_children (domString overallScore);
       className := "score-big " ++ getScoreClass overallScore |} /\
  score_section w'
  = option_map (with_className ("score-section " ++ getScoreClass overallScore))
      (score_section w) /\
  console w' = console w /\
  (scores_printable result = true ->
   timers w' = (timers w ++ [(100, "score-bar-fill", bar_width overallScore)])%list).
Proof.
  intros H Ho. cbv zeta. rewrite (show_response_eq data w H).
  apply show_result_scores; [now apply or_else_present|exact Ho].
Qed.

(** X8. When the scores can be printed and the overall score is a number,
    the width that the timer gives the score bar is the score in percent,
    capped at 100%: a score of 100 or more gives 100%. *)
Theorem score_bar_capped (data : value) (w : World) (q : Q) :
  nullish data = false ->
  scores_printable (or_else (getProp data "raw_json") data) = true ->
  getProp (or_else (getProp data "raw_json") data) "overall_score" = VNum (Fin q) ->
  timers (snd (show_response data w))
  = (timers w ++
     [(100, "score-bar-fill",
       if Qle_bool 100 q then "100%" else (NumberToString (Fin q) ++ "%")%string)])%list.
Proof.
  intros H Hp Hq. rewrite (show_response_eq data w H).
  assert (Hr : nullish (or_else (getProp data "raw_json") data) = false)
    by (now apply or_else_present).
  assert (Ho : printable (getProp (or_else (getProp data "raw_json") data) "overall_score")
               = true) by (now rewrite Hq).
  rewrite (proj2 (proj2 (proj2 (show_result_scores _ w Hr Ho))) Hp), Hq.
  unfold bar_width, coalesce. cbn [nullish ToNumber num_min IsLessThan].
  destruct (Qle_bool 100 q); reflexivity.
Qed.

(** *** Issues *)

(** The list items of a list end normally exactly when the text of each can
    be printed. *)
Lemma list_items_fst (id : string) (f : value -> value) (items : list value) (w : World) :
  fst (for_each (fun x => li <- lift (list_item (f x)) ;; appendChild id li) items w)
  = if forallb (fun x => printable (f x)) items then Ok tt
    else Throw (TypeError "ToPrimitive").
Proof.
  set (F := fun x => li <- lift (list_item (f x)) ;; appendChild id li).
  revert w. induction items as [|x items IH]; intros w; [reflexivity|].
  cbn [for_each forallb]. destruct (printable (f x)) eqn:Hx; cbn [andb].
  - assert (Hstep : fst (F x w) = Ok tt).
    { unfold F, bind, lift, list_item. rewrite Hx. reflexivity. }
    rewrite (bind_fst_ok (F x) _ w Hstep). apply IH.
  - assert (Hstep : fst (F x w) = Throw (TypeError "ToPrimitive")).
    { unfold F, bind, lift, list_item. rewrite Hx. reflexivity. }
    rewrite (bind_throws (F x) _ w _ Hstep). reflexivity.
Qed.

Lemma show_issues_fst (result : value) (w : World) :
  nullish result = false ->
  let found := getProp result "issues_found" in
  fst (show_issues result w)
  = if negb (truthy found) || negb (truthy (getProp found "length")) then Ok tt
    else match found with
         | VArr items =>
             if forallb (fun issue => printable (issue_text issue)) items then Ok tt
             else Throw (TypeError "ToPrimitive")
         | _ => Throw (TypeError "forEach")
         end.
Proof.
  intros H. cbv zeta. unfold show_issues. rewrite (get_present _ _ H). run.
  unfold or_else. destruct (truthy (getProp result "issues_found")) eqn:Ht; cbv iota.
  - rewrite (get_present _ _ (truthy_present _ Ht)). run.
    destruct (truthy (getProp (getProp result "issues_found") "length")) eqn:Hl;
      cbn [negb orb]; [|reflexivity].
    destruct (getProp result "issues_found") eqn:Hf; cbn [forEach throw fst];
      try reflexivity.
    apply list_items_fst.
  - eval_stmt. reflexivity.
Qed.

(** X9. The block of the issues ends normally exactly when [issues_found] is
    falsy, or has a falsy [length], or is an array whose entries give texts
    that can be printed.  Otherwise it raises a TypeError: that of the missing
    [forEach] on a value that is not an array (a text that is not empty,
    say), that of the conversion on an array. *)
Theorem show_issues_raises_iff (result : value) (w : World) :
  nullish result = false ->
  let found := getProp result "issues_found" in
  (fst (show_issues result w) = Ok tt <->
   truthy found = false \/ truthy (getProp found "length") = false \/
   exists items, found = VArr items /\
                 forallb (fun issue => printable (issue_text issue)) items = true) /\
  (truthy found = true -> truthy (getProp found "length") = true ->
   is_array found = false ->
   fst (show_issues result w) = Throw (TypeError "forEach")) /\
  (forall items,
      found = VArr items -> items <> [] ->
      forallb (fun issue => printable (issue_text issue)) items = false ->
      fst (show_issues result w) = Throw (TypeError "ToPrimitive")).
Proof.
  intros H. cbv zeta. rewrite (show_issues_fst result w H). cbv zeta.
  repeat match goal with |- _ /\ _ => split end.
  - destruct (truthy (getProp result "issues_found")); cbn [negb orb]; [|tauto].
    destruct (truthy (getProp (getProp result "issues_found") "length"));
      cbn [negb orb]; [|tauto].
    destruct (getProp result "issues_found") as [| | | | |items|];
      try (split; [discriminate|intros [G|[G|[items' [G _]]]]; discriminate G]).
    destruct (forallb (fun issue => printable (issue_text issue)) items) eqn:Hall.
    + split; [intros _; right; right; now exists items|reflexivity].
    + split; [discriminate|].
      intros [G|[G|[items' [[= <-] G]]]]; try discriminate G. congruence.
  - intros Ht Hl Ha. rewrite Ht, Hl. cbn [negb orb].
    destruct (getProp result "issues_found"); try reflexivity. discriminate Ha.
  - intros items Hf Hne Hall. rewrite Hf.
    destruct items as [|x xs]; [congruence|].
    rewrite (truthy_length x xs). cbn [truthy negb orb]. now rewrite Hall.
Qed.

(** *** Content checks and optimized content *)

Lemma template_printable (v : value) :
  printable v = true -> template v = Ok (ToString v).
Proof. intros H. unfold template. now rewrite H. Qed.

(** X10. On a result that is not null and whose three summaries can be
    printed, the block of the content checks ends normally, and each line
    shows its label followed by the field, or by N/A when the field is falsy
    or [content_checks] is. *)
Theorem show_checks_lines (result : value) (w : World) :
  nullish result = false ->
  let checks := or_else (getProp result "content_checks") (VObj []) in
  printable (getProp checks "grammar_summary") = true ->
  printable (getProp checks "tone_summary") = true ->
  printable (getProp checks "cta_status") = true ->
  let w' := snd (show_checks result w) in
  fst (show_checks result w) = Ok tt /\
  children (dom w' "grammar-summary")
  = [TextNode ("Grammar: "
               ++ ToString (or_else (getProp checks "grammar_summary") (VStr "N/A")))] /\
  children (dom w' "tone-summary")
  = [TextNode ("Tone: " ++ ToString (or_else (getProp checks "tone_summary") (VStr "N/A")))] /\
  children (dom w' "cta-status")
  = [TextNode ("CTA: " ++ ToString (or_else (getProp checks "cta_status") (VStr "N/A")))].
Proof.
  intros H. cbv zeta. intros Hg Ht Hs.
  assert (Hc : nullish (or_else (getProp result "content_checks") (VObj [])) = false)
    by (now apply or_else_present).
  unfold show_checks. rewrite (get_present _ _ H). rewrite bind_lift_ok. cbv beta zeta.
  rewrite !(get_present _ _ Hc). rewrite !bind_lift_ok. cbv beta zeta.
  rewrite (template_printable _ (printable_or_else _ (VStr "N/A") Hg eq_refl)),
    (template_printable _ (printable_or_else _ (VStr "N/A") Ht eq_refl)),
    (template_printable _ (printable_or_else _ (VStr "N/A") Hs eq_refl)).
  rewrite !bind_lift_ok. cbv beta. run.
  repeat match goal with |- _ /\ _ => split end; look; reflexivity.
Qed.

(** X11. On a result that is not null and whose optimized title and content
    can be printed, the block of the optimized content ends normally; each
    element shows its field, and is left empty when the field is falsy or
    [final_output] is. *)
Theorem show_optimized_texts (result : value) (w : World) :
  nullish result = false ->
  let finalOut := or_else (getProp result "final_output") (VObj []) in
  printable (getProp finalOut "optimized_title") = true ->
  printable (getProp finalOut "optimized_content") = true ->
  let w' := snd (show_optimized result w) in
  fst (show_optimized result w) = Ok tt /\
  children (dom w' "optimized-title")
  = text_children (ToString (or_else (getProp finalOut "optimized_title") (VStr ""))) /\
  children (dom w' "optimized-content")
  = text_children (ToString (or_else (getProp finalOut "optimized_content") (VStr ""))) /\
  (truthy (getProp finalOut "optimized_title") = false ->
   children (dom w' "optimized-title") = []) /\
  (truthy (getProp finalOut "optimized_content") = false ->
   children (dom w' "optimized-content") = []).
Proof.
  intros H. cbv zeta. intros Ht Hn.
  assert (Hc : nullish (or_else (getProp result "final_output") (VObj [])) = false)
    by (now apply or_else_present).
  assert (Hd : forall v, domString (or_else v (VStr "")) = ToString (or_else v (VStr ""))).
  { intros v. unfold domString. now rewrite (or_else_present v (VStr "") eq_refl). }
  unfold show_optimized. rewrite (get_present _ _ H). rewrite bind_lift_ok. cbv beta zeta.
  rewrite !(get_present _ _ Hc). rewrite !bind_lift_ok. cbv beta.
  rewrite (set_textContent_printable _ _ (printable_or_else _ (VStr "") Ht eq_refl)),
    (set_textContent_printable _ _ (printable_or_else _ (VStr "") Hn eq_refl)).
  run.
  repeat match goal with |- _ /\ _ => split end; look; rewrite ?Hd; try reflexivity.
  - intros Hf. now rewrite (or_else_falsy _ _ Hf).
  - intros Hf. now rewrite (or_else_falsy _ _ Hf).
Qed.

(** *** Calls to action *)

(** X12. When [improvements.cta_variants] is an array whose entries can be
    printed, the block of the calls to action ends normally: it shows one
    list item per entry, in order, with the entry as the DOM prints it, and
    the placeholder markup for the empty array. *)
Theorem show_ctas_items (result : value) (items : list value) (w : World) :
  nullish result = false ->
  getProp (or_else (getProp result "improvements") (VObj [])) "cta_variants" = VArr items ->
  forallb printable items = true ->
  fst (show_ctas result w) = Ok tt /\
  children (dom (snd (show_ctas result w)) "cta-list")
  = match items with
    | [] => [Markup (muted "li" "No CTA variants returned.")]
    | _ => map (fun cta => Created "li" "" (domString cta)) items
    end.
Proof.
  intros H Hv Hall.
  assert (Hc : nullish (or_else (getProp result "improvements") (VObj [])) = false)
    by (now apply or_else_present).
  unfold show_ctas. rewrite (get_present _ _ H). run.
  rewrite (get_present _ _ Hc), Hv. eval_stmt.
  destruct items as [|x xs]; [split; reflexivity|].
  change (num_truthy (num_of_nat (length (x :: xs)))) with true.
  cbn [negb].
  match goal with
  | |- context [for_each _ _ ?w0] =>
      destruct (for_each_made "cta-list" list_item
                  (fun cta => Created "li" "" (domString cta))
                  (x :: xs) w0 (list_items_made (fun cta => cta) _ Hall)) as [Hok Hch]
  end.
  split; [exact Hok|]. rewrite Hch. reflexivity.
Qed.

(** *** Hashtags *)

Lemma chip_of_string (trending : bool) (t : string) :
  chip trending (VStr t) = Ok (string_chip trending t).
Proof.
  unfold chip, string_chip, chip_class. cbn [is_object isMandatoryHashtag].
  unfold isMandatoryHashtag, toLowerCase_method, obind. fold (mandatory t).
  rewrite append_empty. reflexivity.
Qed.

(** The callback of [items.forEach] in renderChips. *)
Lemma chip_appended (container : string) (trending : bool) (item : value) (w : World) :
  (c <- lift (chip trending item) ;; appendChild container c) w
  = match chip trending item with
    | Ok c => (Ok tt,
               with_dom (upd container (fun e => with_children (children e ++ [c]) e)
                           (dom w)) w)
    | Throw e => (Throw e, w)
    end.
Proof.
  unfold bind, lift. destruct (chip trending item); reflexivity.
Qed.

(** Appending the chips of the items, in order. *)
Lemma for_each_chips (container : string) (trending : bool) (h : value -> Child)
      (items : list value) (w : World) :
  Forall (fun x => chip trending x = Ok (h x)) items ->
  fst (for_each (fun item => c <- lift (chip trending item) ;; appendChild container c)
         items w) = Ok tt /\
  children (dom (snd (for_each
                        (fun item => c <- lift (chip trending item) ;;
                                     appendChild container c) items w)) container)
  = (children (dom w container) ++ map h items)%list.
Proof.
  intros Hall.
  set (F := fun item => c <- lift (chip trending item) ;; appendChild container c).
  revert w. induction Hall as [|x items Hx _ IH]; intros w.
  - split; [reflexivity|]. simpl. now rewrite app_nil_r.
  - assert (Hstep : F x w
                    = (Ok tt,
                       with_dom (upd container
                                   (fun e => with_children (children e ++ [h x]) e)
                                   (dom w)) w)).
    { unfold F. rewrite chip_appended, Hx. reflexivity. }
    cbn [for_each]. rewrite (bind_fst_ok (F x) _ w) by (now rewrite Hstep).
    rewrite Hstep. cbn [snd].
    match goal with
    | |- context [for_each _ items ?w0] => destruct (IH w0) as [Hok Hch]
    end.
    split; [exact Hok|]. rewrite Hch. cbn [dom with_dom].
    unfold upd. rewrite String.eqb_refl. cbn [children with_children].
    now rewrite <- app_assoc.
Qed.

(** The same up to the first item whose chip raises. *)
Lemma for_each_chips_stop (container : string) (trending : bool) (h : value -> Child)
      (pre : list value) (bad : value) (post : list value) (e : exn) (w : World) :
  Forall (fun x => chip trending x = Ok (h x)) pre ->
  chip trending bad = Throw e ->
  fst (for_each (fun item => c <- lift (chip trending item) ;; appendChild container c)
         (pre ++ bad :: post)%list w) = Throw e /\
  children (dom (snd (for_each
                        (fun item => c <- lift (chip trending item) ;;
                                     appendChild container c)
                        (pre ++ bad :: post)%list w)) container)
  = (children (dom w container) ++ map h pre)%list.
Proof.
  intros Hall Hbad.
  set (F := fun item => c <- lift (chip trending item) ;; appendChild container c).
  revert w. induction Hall as [|x items Hx _ IH]; intros w.
  - assert (Hstep : F bad w = (Throw e, w)).
    { unfold F. rewrite chip_appended, Hbad. reflexivity. }
    cbn [app for_each]. rewrite (bind_throws (F bad) _ w e) by (now rewrite Hstep).
    rewrite Hstep. split; [reflexivity|]. simpl. now rewrite app_nil_r.
  - assert (Hstep : F x w
                    = (Ok tt,
                       with_dom (upd container
                                   (fun e => with_children (children e ++ [h x]) e)
                                   (dom w)) w)).
    { unfold F. rewrite chip_appended, Hx. reflexivity. }
    cbn [app for_each]. rewrite (bind_fst_ok (F x) _ w) by (now rewrite Hstep).
    rewrite Hstep. cbn [snd].
    match goal with
    | |- context [for_each _ _ ?w0] => destruct (IH w0) as [Hok Hch]
    end.
    split; [exact Hok|]. rewrite Hch. cbn [dom with_dom].
    unfold upd. rewrite String.eqb_refl. cbn [children with_children].
    now rewrite <- app_assoc.
Qed.

Lemma Forall_string_chips (trending : bool) (tags : list string) :
  Forall (fun x => chip trending x
                   = Ok (match x with
                         | VStr t => string_chip trending t
                         | _ => TextNode ""
                         end))
    (map VStr tags).
Proof.
  induction tags as [|t tags IH]; constructor; [apply chip_of_string|exact IH].
Qed.

Lemma map_string_chips (trending : bool) (tags : list string) :
  map (fun x => match x with
                | VStr t => string_chip trending t
                | _ => TextNode ""
                end) (map VStr tags)
  = map (string_chip trending) tags.
Proof. rewrite map_map. reflexivity. Qed.

(** [renderChips] after its first statement, which empties the container. *)
Lemma renderChips_start (container : string) (items : value) (trending : bool) (w : World) :
  renderChips container items trending w
  = (if negb (truthy items) || negb (truthy (getProp items "length")) then
       set_innerHTML container (muted "span" "None")
     else
       forEach items (fun item =>
         c <- lift (chip trending item) ;; appendChild container c))
      (with_dom (upd container (with_children []) (dom w)) w).
Proof. reflexivity. Qed.

Lemma renderChips_of_strings (container : string) (tags : list string) (trending : bool)
      (w : World) :
  fst (renderChips container (VArr (map VStr tags)) trending w) = Ok tt /\
  children (dom (snd (renderChips container (VArr (map VStr tags)) trending w)) container)
  = chips trending tags.
Proof.
  rewrite renderChips_start. destruct tags as [|t tags].
  - split; [reflexivity|]. cbn. unfold upd. rewrite String.eqb_refl. reflexivity.
  - assert (Hlen : truthy (getProp (VArr (map VStr (t :: tags))) "length") = true)
      by (exact (truthy_length (VStr t) (map VStr tags))).
    cbn [truthy negb orb]. rewrite Hlen. cbn [negb forEach].
    match goal with
    | |- context [for_each _ ?l ?w0] =>
        destruct (for_each_chips container trending _ l w0
                    (Forall_string_chips trending (t :: tags))) as [Hok Hch]
    end.
    split; [exact Hok|]. rewrite Hch, map_string_chips. cbn [dom with_dom].
    unfold upd. rewrite String.eqb_refl. reflexivity.
Qed.

Lemma renderChips_of_nothing (container : string) (items : value) (trending : bool)
      (w : World) :
  truthy items = false \/ truthy (getProp items "length") = false ->
  fst (renderChips container items trending w) = Ok tt /\
  children (dom (snd (renderChips container items trending w)) container)
  = [Markup (muted "span" "None")].
Proof.
  intros Hi. rewrite renderChips_start.
  assert (Hc : negb (truthy items) || negb (truthy (getProp items "length")) = true).
  { destruct Hi as [-> | ->]; [reflexivity|apply orb_true_r]. }
  rewrite Hc. split; [reflexivity|].
  cbn [set_innerHTML on_element modify snd dom with_dom]. unfold upd.
  rewrite String.eqb_refl. reflexivity.
Qed.

(** X13. For an array of strings [renderChips] ends normally and leaves in
    the container, in place of what it held, one chip per tag in order, each
    with the tag as its text, or the placeholder markup when the array is
    empty.  A mandatory tag has the class chip mandatory whether or not the
    group is the trending one; any other tag has chip trending in the
    trending group and chip elsewhere. *)
Theorem renderChips_strings (container : string) (tags : list string) (trending : bool)
        (w : World) :
  fst (renderChips container (VArr (map VStr tags)) trending w) = Ok tt /\
  children (dom (snd (renderChips container (VArr (map VStr tags)) trending w)) container)
  = chips trending tags /\
  (forall t, mandatory t = true -> chip_class trending t = "chip mandatory") /\
  (forall t, mandatory t = false ->
             chip_class true t = "chip trending" /\ chip_class false t = "chip").
Proof.
  destruct (renderChips_of_strings container tags trending w) as [H1 H2].
  repeat match goal with |- _ /\ _ => split end.
  - exact H1.
  - exact H2.
  - intros t Ht. unfold chip_class. now rewrite Ht.
  - intros t Ht. unfold chip_class. rewrite Ht. split; reflexivity.
Qed.

(** X14. An item that is neither a string nor an object (a number, a
    boolean, null) stops [renderChips] with a TypeError: the chips of the
    strings before it stay in the container, and no later item is shown. *)
Theorem renderChips_stops_at_bad_item
        (container : string) (pre : list string) (bad : value) (post : list value)
        (trending : bool) (w : World) :
  is_string bad = false -> is_object bad = false ->
  let items := VArr (map VStr pre ++ bad :: post) in
  fst (renderChips container items trending w) = Throw (TypeError "toLowerCase") /\
  children (dom (snd (renderChips container items trending w)) container)
  = map (string_chip trending) pre.
Proof.
  intros Hs Ho. cbv zeta. rewrite renderChips_start.
  assert (Hbad : chip trending bad = Throw (TypeError "toLowerCase")).
  { unfold chip. rewrite Ho, (isMandatoryHashtag_throws bad Hs). reflexivity. }
  assert (Hlen : truthy (getProp (VArr (map VStr pre ++ bad :: post)) "length") = true).
  { destruct pre; apply truthy_length. }
  cbn [truthy negb orb]. rewrite Hlen. cbn [negb forEach].
  match goal with
  | |- context [for_each _ _ ?w0] =>
      destruct (for_each_chips_stop container trending _ (map VStr pre) bad post _ w0
                  (Forall_string_chips trending pre) Hbad) as [Hok Hch]
  end.
  split; [exact Hok|]. rewrite Hch, map_string_chips. cbn [dom with_dom].
  unfold upd. rewrite String.eqb_refl. reflexivity.
Qed.

(** X15. The chip of an item that is an object.  With a tag that is a text:
    the chip is that of the tag when there is no competition level; with a
    level that is a text, the class gains competition- and the lowercased
    level, the text gains the level after a middle dot, and whether the tag
    is mandatory is judged on the tag alone; a level that is truthy and not a
    text raises a TypeError.  Without a tag the JSON text of the item stands
    in for it. *)
Theorem chip_of_object (trending : bool) (item : value) :
  is_object item = true ->
  let level := getProp item "competition_level" in
  (forall tag, getProp item "tag" = VStr tag -> str_empty tag = false ->
               truthy level = false ->
               chip trending item = Ok (string_chip trending tag)) /\
  (forall tag l, getProp item "tag" = VStr tag -> str_empty tag = false ->
                 level = VStr l -> str_empty l = false ->
                 chip trending item
                 = Ok (Created "span"
                         (chip_class trending tag ++ " competition-" ++ toLowerCase l)
                         (tag ++ " " ++ middle_dot ++ " " ++ l))) /\
  (forall tag, getProp item "tag" = VStr tag -> str_empty tag = false ->
               truthy level = true -> is_string level = false ->
               chip trending item = Throw (TypeError "toLowerCase")) /\
  (truthy (getProp item "tag") = false -> truthy level = false ->
   exists dump, stringify item = Some dump /\
                chip trending item = Ok (string_chip trending dump)).
Proof.
  intros Hobj. cbv zeta. unfold chip. rewrite Hobj.
  assert (Hm : forall t, isMandatoryHashtag (VStr t) = Ok (mandatory t)) by reflexivity.
  assert (Hor : forall tag b, str_empty tag = false -> or_else (VStr tag) b = VStr tag).
  { intros tag b Hne. apply or_else_truthy. cbn. now rewrite Hne. }
  repeat match goal with |- _ /\ _ => split end.
  - intros tag Ht Hne Hl. rewrite Ht, Hl, (Hor _ _ Hne), Hm. cbn [obind].
    unfold string_chip, chip_class. now rewrite append_empty.
  - intros tag l Ht Hne Hl Hlne. rewrite Ht, Hl, (Hor _ _ Hne), Hm.
    cbn [obind truthy toLowerCase_method ToString]. rewrite Hlne.
    cbn [negb]. unfold chip_class. cbn [obind]. reflexivity.
  - intros tag Ht Hne Hl Hs. rewrite Ht, Hl, (Hor _ _ Hne), Hm. cbn [obind].
    destruct (getProp item "competition_level"); try reflexivity. discriminate Hs.
  - intros Ht Hl. rewrite Hl, (or_else_falsy _ _ Ht). unfold JSON_stringify.
    destruct item; try discriminate Hobj.
    + eexists. split; [reflexivity|]. cbn [stringify]. rewrite Hm. cbn [obind].
      unfold string_chip, chip_class. now rewrite append_empty.
    + eexists. split; [reflexivity|]. cbn [stringify]. rewrite Hm. cbn [obind].
      unfold string_chip, chip_class. now rewrite append_empty.
Qed.

Lemma final_pack_eq (result : value) :
  safeGet result (VStr "final_output.final_hashtag_pack") (VArr [])
  = Ok (coalesce (safeGet_step (safeGet_step result "final_output") "final_hashtag_pack")
          (VArr [])).
Proof. reflexivity. Qed.

Lemma show_hashtags_eq (result : value) (w : World) :
  nullish result = false ->
  show_hashtags result w
  = (renderChips "tags-final"
       (coalesce (safeGet_step (safeGet_step result "final_output") "final_hashtag_pack")
          (VArr [])) false ;;
     renderChips "tags-trending"
       (or_else (getProp (or_else (getProp result "hashtags") (VObj [])) "trending")
          (VArr [])) true) w.
Proof.
  intros H.
  assert (Ht : nullish (or_else (getProp result "hashtags") (VObj [])) = false)
    by (now apply or_else_present).
  unfold show_hashtags. rewrite (get_present _ _ H), final_pack_eq.
  cbn [bind lift]. rewrite (get_present _ _ Ht). reflexivity.
Qed.

(** X16. When [final_output.final_hashtag_pack] and [hashtags.trending] are
    arrays of strings, the block of the hashtags ends normally; the final
    group shows its tags as chips that are never marked trending, the
    trending group shows its tags as chips marked trending unless
    mandatory. *)
Theorem show_hashtags_strings (result : value) (pack trend : list string) (w : World) :
  truthy result = true ->
  truthy (getProp result "final_output") = true ->
  getProp (getProp result "final_output") "final_hashtag_pack" = VArr (map VStr pack) ->
  getProp (or_else (getProp result "hashtags") (VObj [])) "trending"
  = VArr (map VStr trend) ->
  let w' := snd (show_hashtags result w) in
  fst (show_hashtags result w) = Ok tt /\
  children (dom w' "tags-final") = chips false pack /\
  children (dom w' "tags-trending") = chips true trend.
Proof.
  intros Hr Hfo Hpack Htrend. cbv zeta.
  rewrite (show_hashtags_eq result w (truthy_present _ Hr)).
  unfold safeGet_step. rewrite Hr, Hfo, Hpack, Htrend.
  cbn [coalesce nullish or_else truthy].
  rewrite bind_fst_ok by (exact (proj1 (renderChips_of_strings _ _ _ _))).
  repeat match goal with |- _ /\ _ => split end.
  - exact (proj1 (renderChips_of_strings _ _ _ _)).
  - rewrite (keeps_renderChips "tags-final" "tags-trending" _ true eq_refl).
    exact (proj2 (renderChips_of_strings _ _ _ _)).
  - exact (proj2 (renderChips_of_strings _ _ _ _)).
Qed.

(** X17. The final group shows the placeholder whenever the path
    final_output.final_hashtag_pack leads nowhere: the result or
    [final_output] is falsy, or the pack is absent or null.  This holds
    whatever the trending group does afterwards. *)
Theorem show_hashtags_default (result : value) (w : World) :
  nullish result = false ->
  truthy result = false \/ truthy (getProp result "final_output") = false \/
  nullish (getProp (getProp result "final_output") "final_hashtag_pack") = true ->
  children (dom (snd (show_hashtags result w)) "tags-final")
  = [Markup (muted "span" "None")].
Proof.
  intros H Hcase.
  rewrite (show_hashtags_eq result w H).
  assert (Hp : coalesce (safeGet_step (safeGet_step result "final_output")
                           "final_hashtag_pack") (VArr []) = VArr []).
  { unfold safeGet_step. destruct Hcase as [Hr|[Hfo|Hn]].
    - rewrite Hr. reflexivity.
    - destruct (truthy result); [rewrite Hfo|]; reflexivity.
    - destruct (truthy result); [|reflexivity].
      destruct (truthy (getProp result "final_output")); [|reflexivity].
      unfold coalesce. now rewrite Hn. }
  rewrite Hp.
  rewrite bind_keeps by (intros _; now apply keeps_renderChips).
  apply (renderChips_of_nothing "tags-final" (VArr []) false w). now right.
Qed.

(** *** Results that are not objects, and payloads that are null *)

Lemma getProp_primitive (result : value) (k : string) :
  is_object result = false -> In k RESULT_KEYS -> getProp result k = VUndefined.
Proof.
  intros Ho Hk. destruct result; try discriminate Ho; try reflexivity.
  simpl in Hk. members; subst; reflexivity.
Qed.

Lemma show_result_primitive (result : value) (w : World) :
  nullish result = false -> is_object result = false ->
  show_result result w = show_result (VObj []) w.
Proof.
  intros Hn Ho.
  assert (G : forall k, In k RESULT_KEYS -> get result k = get (VObj []) k).
  { intros k Hk. now rewrite (get_present _ _ Hn), (getProp_primitive result k Ho Hk). }
  assert (P : safeGet result (VStr "final_output.final_hashtag_pack") (VArr [])
              = safeGet (VObj []) (VStr "final_output.final_hashtag_pack") (VArr [])).
  { rewrite !final_pack_eq. unfold safeGet_step.
    rewrite (getProp_primitive result "final_output" Ho) by (simpl; tauto).
    destruct (truthy result); reflexivity. }
  unfold show_result, show_scores, show_issues, show_checks, show_hashtags,
    show_optimized, show_ctas.
  rewrite P.
  rewrite (G "overall_score") by (simpl; tauto).
  rewrite (G "scores_breakdown") by (simpl; tauto).
  rewrite (G "issues_found") by (simpl; tauto).
  rewrite (G "content_checks") by (simpl; tauto).
  rewrite (G "hashtags") by (simpl; tauto).
  rewrite (G "final_output") by (simpl; tauto).
  rewrite (G "improvements") by (simpl; tauto).
  reflexivity.
Qed.

(** X18. A payload whose result is not an object (a text, a number or a
    boolean, as when [raw_json] holds a text that is not empty) is shown as
    the empty object is: every default, and nothing of the top level. *)
Theorem primitive_result_renders_defaults (data : value) (w : World) :
  nullish data = false ->
  is_object (or_else (getProp data "raw_json") data) = false ->
  show_response data w = show_response (VObj []) w.
Proof.
  intros Hd Ho.
  rewrite (show_response_eq data w Hd), (show_response_eq (VObj []) w eq_refl).
  apply show_result_primitive; [now apply or_else_present|exact Ho].
Qed.

Lemma show_response_null (data : value) (w : World) :
  nullish data = true -> show_response data w = (Throw (TypeError "raw_json"), w).
Proof.
  intros H. unfold show_response, select_result, get, bind, lift. now rewrite H.
Qed.

(** The rendering of the empty object ends normally. *)
Lemma show_response_empty_ok : succeeds (show_response (VObj [])).
Proof.
  intros w. rewrite (show_response_eq (VObj []) w eq_refl).
  cbn [getProp lookup or_else truthy]. revert w.
  change (succeeds (show_result (VObj []))). unfold show_result.
  apply succeeds_bind; [apply succeeds_on_element|].
  apply succeeds_bind; [apply succeeds_on_element|].
  apply succeeds_bind; [now apply show_scores_succeeds|].
  apply succeeds_bind; [intros w; exact (proj1 (show_issues_empty w))|].
  apply succeeds_bind; [intros w; exact (proj1 (show_checks_empty w))|].
  apply succeeds_bind; [intros w; exact (proj1 (show_hashtags_empty w))|].
  apply succeeds_bind; [intros w; exact (proj1 (show_optimized_empty w))|].
  intros w; exact (proj1 (show_ctas_empty w)).
Qed.

(** When the issues cannot be listed, the rendering stops there. *)
Lemma show_result_stops_at_issues (result : value) (w : World) :
  nullish result = false ->
  scores_printable result = true ->
  (forall w0, fst (show_issues result w0) = Throw (TypeError "forEach")) ->
  let w' := snd (show_result result w) in
  fst (show_result result w) = Throw (TypeError "forEach") /\
  (forall id, In id AFTER_ISSUES -> dom w' id = dom w id) /\
  console w' = console w.
Proof.
  intros H Hp Hthrow. cbv zeta. unfold show_result.
  assert (Hov : printable (getProp result "overall_score") = true).
  { unfold scores_printable in Hp. now apply andb_true_iff in Hp as [Hov _]. }
  rewrite (bind_succeeds _ _ _ (succeeds_on_element _ _)).
  rewrite (bind_succeeds _ _ _ (succeeds_on_element _ _)).
  rewrite (bind_succeeds _ _ _ (show_scores_succeeds result H Hp)).
  rewrite (bind_throws _ _ _ _ (Hthrow _)). cbn [fst snd].
  repeat match goal with |- _ /\ _ => split end.
  - reflexivity.
  - intros id Hin.
    assert (Hno : forall key, ~ In (id, key) BREAKDOWN).
    { intros key Hk. simpl in Hin, Hk. members; subst; discriminate. }
    assert (Hids : String.eqb id "issues-list" = false /\
                   String.eqb id "overall-score" = false /\
                   String.eqb id "result-content" = false /\
                   String.eqb id "result-empty" = false).
    { simpl in Hin. members; subst; repeat split; reflexivity. }
    destruct Hids as [Hi [Ho [Hc He]]].
    rewrite (keeps_show_issues id result Hi), (keeps_show_scores id result Ho Hno).
    rewrite (keeps_on_element id _ _ Hc), (keeps_on_element id _ _ He). reflexivity.
  - assert (Hl : leaves console (show_issues result)).
    { unfold show_issues, set_innerHTML, appendChild, on_element.
      repeat first [ apply leaves_forEach; intros ? | leaves_step ]. }
    rewrite Hl. rewrite (proj2 (show_scores_section result _ H Hov)). reflexivity.
Qed.

Lemma keeps_show_response (id : string) (data : value) :
  is_control id = true -> keeps id (show_response data).
Proof.
  intros Hid.
  assert (Hcase : id = "error-box" \/ id = "btn-text" \/ id = "btn-spinner").
  { unfold is_control in Hid. apply orb_true_iff in Hid as [Hid|Hid];
      [apply orb_true_iff in Hid as [Hid|Hid]|]; apply String.eqb_eq in Hid; tauto. }
  assert (Hno : forall key, ~ In (id, key) BREAKDOWN).
  { intros key Hk. simpl in Hk.
    destruct Hcase as [->|[->| ->]]; members; discriminate. }
  unfold show_response, show_result.
  apply keeps_bind; [apply keeps_lift|intros result].
  destruct Hcase as [->|[->| ->]];
    repeat first [ apply keeps_show_scores; [reflexivity|exact Hno]
                 | apply keeps_show_issues; reflexivity
                 | apply keeps_show_checks; reflexivity
                 | apply keeps_show_hashtags; reflexivity
                 | apply keeps_show_optimized; reflexivity
                 | apply keeps_show_ctas; reflexivity
                 | apply keeps_on_element; reflexivity
                 | apply keeps_bind; [|intros ?] ].
Qed.

Lemma console_show_response (data : value) : leaves console (show_response data).
Proof.
  unfold show_response, show_result, show_scores, show_issues, show_checks,
    show_hashtags, show_optimized, show_ctas, renderChips, show_score,
    set_textContent, set_innerHTML, set_className, appendChild, on_element.
  repeat first [ apply leaves_forEach; intros ? | leaves_step ].
Qed.

End Blocks.

(* ================================================================= *)
(** ** Further properties of the submission *)

Section Outcomes.
Context {E : Engine}.

Lemma succeeds_set_textContent (id : string) (v : value) :
  printable v = true -> succeeds (set_textContent id v).
Proof. intros H w. rewrite (set_textContent_printable _ _ H). reflexivity. Qed.

(** The [catch] block as a sequence of writes: what it shows is a text. *)
Lemma catch_block_writes (err : exn) :
  catch_block err
  = modify (fun w => with_console (console w ++ [err]) w) ;;
    on_element "error-box"
      (with_children
         (text_children
            (domString (or_else (VStr (message err)) (VStr "Something went wrong."))))) ;;
    on_element "error-box" (classList_remove "hidden").
Proof.
  unfold catch_block.
  now rewrite (set_textContent_printable "error-box" _
                 (printable_or_else (VStr (message err)) (VStr "Something went wrong.")
                    eq_refl eq_refl)).
Qed.

Lemma succeeds_setLoading (b : bool) : succeeds (setLoading b).
Proof. intros w. destruct b; reflexivity. Qed.

Lemma succeeds_catch_block (e : exn) : succeeds (catch_block e).
Proof. intros w. rewrite catch_block_writes. reflexivity. Qed.

Lemma keeps_setLoading (id : string) (b : bool) :
  String.eqb id "btn-text" = false -> String.eqb id "btn-spinner" = false ->
  keeps id (setLoading b).
Proof.
  intros H1 H2. unfold setLoading, set_textContent. destruct b; repeat frame_step.
Qed.

Lemma console_setLoading (b : bool) : leaves console (setLoading b).
Proof. intros w. destruct b; reflexivity. Qed.

(** X19. [setLoading] ends normally; it sets the text of the button and shows
    the spinner when loading starts, hides it when loading ends, and touches
    no other element. *)
Theorem setLoading_toggles (isLoading : bool) (w : World) :
  let w' := snd (setLoading isLoading w) in
  fst (setLoading isLoading w) = Ok tt /\
  children (dom w' "btn-text")
  = [TextNode (if isLoading then "Analyzing..." else "Run QA")] /\
  is_hidden (dom w' "btn-spinner") = negb isLoading /\
  (forall id, String.eqb id "btn-text" = false -> String.eqb id "btn-spinner" = false ->
              dom w' id = dom w id).
Proof.
  cbv zeta. unfold setLoading. destruct isLoading; run.
  all: repeat match goal with |- _ /\ _ => split end; try reflexivity.
  - look. unfold is_hidden. apply contains_remove.
  - intros id H1 H2. unfold upd. now rewrite H1, H2.
  - look. unfold is_hidden. apply contains_add; reflexivity.
  - intros id H1 H2. unfold upd. now rewrite H1, H2.
Qed.

(** The listener with content is the [try] statement run on the page that the
    statements before it leave. *)
Lemma submit_eq (net : Request -> FetchResult) (inp : Inputs) (w : World) :
  str_empty (trim (content inp)) = false ->
  submit net inp w
  = try_catch_finally (try_block net inp) catch_block (setLoading false) (entered w).
Proof.
  intros Hc. unfold submit. rewrite Hc.
  rewrite (bind_succeeds _ _ _ (succeeds_on_element _ _)).
  rewrite (bind_succeeds _ _ _ (succeeds_set_textContent _ (VStr "") eq_refl)).
  rewrite (bind_succeeds _ _ _ (succeeds_setLoading true)).
  reflexivity.
Qed.

Lemma submit_run (net : Request -> FetchResult) (inp : Inputs) (w : World) :
  str_empty (trim (content inp)) = false ->
  submit net inp w
  = setLoading false
      (match fst (try_block net inp (entered w)) with
       | Ok _ => snd (try_block net inp (entered w))
       | Throw e => snd (catch_block e (snd (try_block net inp (entered w))))
       end).
Proof.
  intros Hc. rewrite (submit_eq net inp w Hc).
  apply try_catch_finally_run. exact succeeds_catch_block.
Qed.

(** A submission whose [try] block raises. *)
Lemma submit_caught (net : Request -> FetchResult) (inp : Inputs) (w w1 : World) (e : exn) :
  str_empty (trim (content inp)) = false ->
  try_block net inp (entered w) = (Throw e, w1) ->
  submit net inp w = setLoading false (snd (catch_block e w1)).
Proof.
  intros Hc Ht. rewrite (submit_run net inp w Hc), Ht. reflexivity.
Qed.

Lemma setLoading_false_button (w : World) :
  children (dom (snd (setLoading false w)) "btn-text") = [TextNode "Run QA"] /\
  is_hidden (dom (snd (setLoading false w)) "btn-spinner") = true.
Proof.
  unfold setLoading. run. look. split; [reflexivity|].
  unfold is_hidden. apply contains_add; reflexivity.
Qed.

(** X20. The listener never lets an exception out, whatever the transport
    answers and whatever the body holds; and every submission with content
    ends with the button reading Run QA and the spinner hidden. *)
Theorem submit_never_raises (net : Request -> FetchResult) (inp : Inputs) (w : World) :
  fst (submit net inp w) = Ok tt /\
  (str_empty (trim (content inp)) = false ->
   children (dom (snd (submit net inp w)) "btn-text") = [TextNode "Run QA"] /\
   is_hidden (dom (snd (submit net inp w)) "btn-spinner") = true).
Proof.
  destruct (str_empty (trim (content inp))) eqn:Hc.
  - split; [|discriminate]. unfold submit. rewrite Hc. reflexivity.
  - rewrite (submit_run net inp w Hc). split.
    + apply succeeds_setLoading.
    + intros _. apply setLoading_false_button.
Qed.

Lemma control_ids (id : string) :
  is_control id = false ->
  String.eqb id "error-box" = false /\ String.eqb id "btn-text" = false /\
  String.eqb id "btn-spinner" = false.
Proof.
  unfold is_control. intros H.
  apply orb_false_iff in H as [H H3]. apply orb_false_iff in H as [H1 H2]. auto.
Qed.

Lemma entered_page (w : World) :
  children (dom (entered w) "error-box") = [] /\
  is_hidden (dom (entered w) "error-box") = true /\
  console (entered w) = console w /\
  timers (entered w) = timers w /\
  score_section (entered w) = score_section w /\
  (forall id, is_control id = false -> dom (entered w) id = dom w id).
Proof.
  unfold entered, setLoading. run.
  repeat match goal with |- _ /\ _ => split end; try reflexivity.
  - look. unfold is_hidden. apply contains_add; reflexivity.
  - intros id Hid. apply control_ids in Hid as [H1 [H2 H3]].
    unfold upd. now rewrite H1, H2, H3.
Qed.

(** What the [catch] block and the [finally] block leave after an exception. *)
Lemma caught_page (e : exn) (w : World) :
  let w' := snd (setLoading false (snd (catch_block e w))) in
  children (dom w' "error-box") = text_children (error_text e) /\
  is_hidden (dom w' "error-box") = false /\
  console w' = (console w ++ [e])%list /\
  timers w' = timers w /\
  score_section w' = score_section w /\
  fetches w' = fetches w /\
  (forall id, is_control id = false -> dom w' id = dom w id).
Proof.
  cbv zeta. rewrite catch_block_writes. unfold setLoading. run.
  repeat match goal with |- _ /\ _ => split end; try reflexivity.
  - look. unfold error_text, domString, or_else.
    cbn [truthy]. destruct (str_empty (message e)); reflexivity.
  - look. unfold is_hidden. apply contains_remove.
  - intros id Hid. apply control_ids in Hid as [H1 [H2 H3]].
    unfold upd. now rewrite H1, H2, H3.
Qed.

Lemma try_block_rejected (net : Request -> FetchResult) (inp : Inputs) (e : exn) (w : World) :
  net (analyze_request (API_BASE (hostname inp)) (build_payload inp)) = Rejected e ->
  try_block net inp w
  = (Throw e,
     with_fetches (analyze_request (API_BASE (hostname inp)) (build_payload inp)
                   :: fetches w) w).
Proof.
  intros H. unfold try_block, bind, fetch. now rewrite H.
Qed.

Lemma try_block_bad_body (net : Request -> FetchResult) (inp : Inputs) (e : exn) (w : World) :
  net (analyze_request (API_BASE (hostname inp)) (build_payload inp))
  = Response true (BadBody e) ->
  try_block net inp w
  = (Throw e,
     with_fetches (analyze_request (API_BASE (hostname inp)) (build_payload inp)
                   :: fetches w) w).
Proof.
  intros H. unfold try_block, bind, fetch. now rewrite H.
Qed.

Lemma try_block_not_ok (net : Request -> FetchResult) (inp : Inputs) (b : Body) (w : World) :
  net (analyze_request (API_BASE (hostname inp)) (build_payload inp))
  = Response false b ->
  try_block net inp w
  = (match get (match b with JsonBody d => d | BadBody _ => VObj [] end) "detail" with
     | Ok detail => Throw (new_Error (or_else detail (VStr "Server error")))
     | Throw e => Throw e
     end,
     with_fetches (analyze_request (API_BASE (hostname inp)) (build_payload inp)
                   :: fetches w) w).
Proof.
  intros H. unfold try_block, bind, fetch. rewrite H. cbn [negb lift throw].
  destruct (get _ "detail"); reflexivity.
Qed.

Lemma try_block_ok (net : Request -> FetchResult) (inp : Inputs) (data : value) (w : World) :
  net (analyze_request (API_BASE (hostname inp)) (build_payload inp))
  = Response true (JsonBody data) ->
  try_block net inp w
  = show_response data
      (with_fetches (analyze_request (API_BASE (hostname inp)) (build_payload inp)
                     :: fetches w) w).
Proof.
  intros H. unfold try_block, bind, fetch. rewrite H. reflexivity.
Qed.

(** X21. When the request is rejected, or the body of a successful response
    is not JSON, the error box is shown with the message of the exception, or
    with "Something went wrong." when the message is empty; the exception is
    logged; no timer is set; and every element but the error box and the
    button is as it was, a result shown before included. *)
Theorem transport_failure_shown
        (net : Request -> FetchResult) (inp : Inputs) (w : World) (e : exn) :
  str_empty (trim (content inp)) = false ->
  net (analyze_request (API_BASE (hostname inp)) (build_payload inp)) = Rejected e \/
  net (analyze_request (API_BASE (hostname inp)) (build_payload inp))
  = Response true (BadBody e) ->
  let w' := snd (submit net inp w) in
  children (dom w' "error-box") = text_children (error_text e) /\
  is_hidden (dom w' "error-box") = false /\
  console w' = (console w ++ [e])%list /\
  timers w' = timers w /\
  (forall id, is_control id = false -> dom w' id = dom w id).
Proof.
  intros Hc Hnet. cbv zeta.
  assert (Ht : try_block net inp (entered w)
               = (Throw e,
                  with_fetches
                    (analyze_request (API_BASE (hostname inp)) (build_payload inp)
                     :: fetches (entered w)) (entered w))).
  { destruct Hnet as [H|H];
      [now apply try_block_rejected|now apply try_block_bad_body]. }
  rewrite (submit_caught net inp w _ e Hc Ht).
  destruct (caught_page e
              (with_fetches
                 (analyze_request (API_BASE (hostname inp)) (build_payload inp)
                  :: fetches (entered w)) (entered w)))
    as [H1 [H2 [H3 [H4 [_ [_ H7]]]]]].
  destruct (entered_page w) as [_ [_ [G3 [G4 [_ G6]]]]].
  repeat match goal with |- _ /\ _ => split end.
  - exact H1.
  - exact H2.
  - rewrite H3. cbn [console with_fetches]. now rewrite G3.
  - rewrite H4. cbn [timers with_fetches]. exact G4.
  - intros id Hid. rewrite (H7 id Hid). cbn [dom with_fetches]. exact (G6 id Hid).
Qed.


(** X23. A successful response whose body is the JSON null is shown as an
    error: the error box holds the message of the TypeError raised by reading
    [raw_json], and nothing is rendered. *)
Theorem null_body_shown_as_error
        (net : Request -> FetchResult) (inp : Inputs) (w : World) (data : value) :
  str_empty (trim (content inp)) = false ->
  net (analyze_request (API_BASE (hostname inp)) (build_payload inp))
  = Response true (JsonBody data) ->
  nullish data = true ->
  let w' := snd (submit net inp w) in
  children (dom w' "error-box") = text_children (error_text (TypeError "raw_json")) /\
  is_hidden (dom w' "error-box") = false /\
  timers w' = timers w /\
  (forall id, is_control id = false -> dom w' id = dom w id).
Proof.
  intros Hc Hnet Hd. cbv zeta.
  pose proof (try_block_ok net inp data (entered w) Hnet) as Htry.
  rewrite (show_response_null data _ Hd) in Htry.
  rewrite (submit_caught net inp w _ _ Hc Htry).
  match type of Htry with
  | _ = (_, ?w1) =>
      destruct (caught_page (TypeError "raw_json") w1) as [H1 [H2 [_ [H4 [_ [_ H7]]]]]]
  end.
  destruct (entered_page w) as [_ [_ [_ [G4 [_ G6]]]]].
  repeat match goal with |- _ /\ _ => split end.
  - exact H1.
  - exact H2.
  - rewrite H4. exact G4.
  - intros id Hid. rewrite (H7 id Hid). exact (G6 id Hid).
Qed.

(** X24. When the response is ok and its rendering ends normally, the error
    box is left hidden and empty, whatever it showed before the submission,
    and nothing is logged. *)
Theorem success_clears_error
        (net : Request -> FetchResult) (inp : Inputs) (w : World) (data : value) :
  str_empty (trim (content inp)) = false ->
  net (analyze_request (API_BASE (hostname inp)) (build_payload inp))
  = Response true (JsonBody data) ->
  succeeds (show_response data) ->
  let w' := snd (submit net inp w) in
  children (dom w' "error-box") = [] /\
  is_hidden (dom w' "error-box") = true /\
  console w' = console w.
Proof.
  intros Hc Hnet Hs. cbv zeta.
  rewrite (submit_run net inp w Hc), (try_block_ok net inp data (entered w) Hnet).
  rewrite (Hs _).
  destruct (entered_page w) as [G1 [G2 [G3 _]]].
  rewrite (keeps_setLoading "error-box" false eq_refl eq_refl).
  rewrite (keeps_show_response "error-box" data eq_refl).
  rewrite (console_setLoading false), (console_show_response data).
  cbn [dom console with_fetches].
  repeat match goal with |- _ /\ _ => split end; assumption.
Qed.

(** X25. A response that is ok, whose scores can be printed, but whose issues
    cannot be listed ([issues_found] a text that is not empty, say) leaves a
    page rendered in part: the error box shows the TypeError, and yet the
    result is shown with the scores of this response, while the elements of
    the later blocks keep what they held before the submission. *)
Theorem render_failure_leaves_partial_page
        (net : Request -> FetchResult) (inp : Inputs) (w : World) (data : value) :
  str_empty (trim (content inp)) = false ->
  net (analyze_request (API_BASE (hostname inp)) (build_payload inp))
  = Response true (JsonBody data) ->
  nullish data = false ->
  let result := or_else (getProp data "raw_json") data in
  let found := getProp result "issues_found" in
  scores_printable result = true ->
  truthy found = true -> truthy (getProp found "length") = true ->
  is_array found = false ->
  let w' := snd (submit net inp w) in
  children (dom w' "error-box") = text_children (error_text (TypeError "forEach")) /\
  is_hidden (dom w' "error-box") = false /\
  is_hidden (dom w' "result-content") = false /\
  (forall id key,
      In (id, key) BREAKDOWN ->
      dom w' id
      = score_element (getProp (or_else (getProp result "scores_breakdown") (VObj [])) key)) /\
  (forall id, In id AFTER_ISSUES -> dom w' id = dom w id) /\
  console w' = (console w ++ [TypeError "forEach"])%list.
Proof.
  intros Hc Hnet Hd. cbv zeta. intros Hp Ht Hl Ha.
  set (result := or_else (getProp data "raw_json") data) in *.
  assert (Hr : nullish result = false) by (now apply or_else_present).
  pose proof (try_block_ok net inp data (entered w) Hnet) as Htry.
  rewrite (show_response_eq data _ Hd) in Htry. fold result in Htry.
  set (w1 := with_fetches _ (entered w)) in Htry.
  assert (Hthrow : forall w0, fst (show_issues result w0) = Throw (TypeError "forEach")).
  { intros w0. rewrite (show_issues_fst result w0 Hr). cbv zeta.
    rewrite Ht, Hl. cbn [negb orb].
    destruct (getProp result "issues_found"); try reflexivity. discriminate Ha. }
  destruct (show_result_stops_at_issues result w1 Hr Hp Hthrow) as [S1 [S2 S3]].
  pose proof (show_result_shown result w1) as [_ S4].
  pose proof (fun id key => show_result_breakdown result w1 id key Hr Hp) as S5.
  destruct (show_result result w1) as [o w2] eqn:Hrun. cbn [fst snd] in *. subst o.
  rewrite (submit_caught net inp w w2 _ Hc Htry).
  destruct (caught_page (TypeError "forEach") w2) as [H1 [H2 [H3 [_ [_ [_ H7]]]]]].
  destruct (entered_page w) as [_ [_ [G3 [_ [_ G6]]]]].
  repeat match goal with |- _ /\ _ => split end.
  - exact H1.
  - exact H2.
  - rewrite (H7 "result-content" eq_refl). exact S4.
  - intros id key Hin. rewrite H7; [now apply S5|].
    simpl in Hin. destruct Hin as [[= <- _]|[[= <- _]|[[= <- _]|[[= <- _]|[]]]]]; reflexivity.
  - intros id Hin.
    assert (Hid : is_control id = false).
    { simpl in Hin.
      repeat match goal with
             | H : _ \/ _ |- _ => destruct H
             | H : False |- _ => destruct H
             end; subst; reflexivity. }
    rewrite (H7 id Hid), (S2 id Hin). unfold w1. cbn [dom with_fetches].
    exact (G6 id Hid).
  - rewrite H3, S3. unfold w1. cbn [console with_fetches]. now rewrite G3.
Qed.

End Outcomes.

(* ================================================================= *)
(** ** Closed instances of the further properties *)

Lemma getScoreClass_monotone_witness :
  (band_rank (getScoreClass (E := ascii_engine) (VNum (Fin 59)))
   <= band_rank (getScoreClass (E := ascii_engine) (VNum (Fin 91))))%nat.
Proof.
  assert (H : (59 <= 91)%Q) by (unfold Qle; simpl; lia).
  exact (proj1 (getScoreClass_monotone (E := ascii_engine) 59 91 H)).
Defined.

Lemma getScoreClass_always_a_band_witness :
  In (getScoreClass (E := ascii_engine) (VArr [VNum (Fin 95)])) BANDS.
Proof.
  apply (proj1 (getScoreClass_always_a_band (E := ascii_engine) (VArr [VNum (Fin 95)])
                  eq_refl)).
Defined.

Lemma isMandatoryHashtag_ignores_marks_and_case_witness :
  isMandatoryHashtag (E := ascii_engine) (VStr ("#SNS" ++ String "-" "iHub"))
  = isMandatoryHashtag (E := ascii_engine) (VStr ("#SNS" ++ "iHub")).
Proof.
  apply (proj1 (isMandatoryHashtag_ignores_marks_and_case (E := ascii_engine)
                  "#SNS" "iHub" "-" eq_refl eq_refl eq_refl eq_refl)).
Defined.

Lemma isMandatoryHashtag_not_a_string_witness :
  isMandatoryHashtag (E := ascii_engine) (VNum (Fin 5))
  = Throw (TypeError (E := ascii_engine) "toLowerCase").
Proof.
  apply (proj1 (isMandatoryHashtag_not_a_string (E := ascii_engine) (VNum (Fin 5)) eq_refl)).
Defined.

Lemma safeGet_result_present_witness : nullish (VNum (Fin 0)) = false.
Proof.
  apply (proj1 (safeGet_result_present (E := ascii_engine)
                  nested_c0 (VStr "a.b.c") (VArr []) (VNum (Fin 0)) eq_refl eq_refl)).
Defined.

Lemma setLoading_toggles_witness :
  dom (snd (setLoading (E := ascii_engine) true blank_page)) "error-box"
  = dom blank_page "error-box".
Proof.
  apply (proj2 (proj2 (proj2 (setLoading_toggles (E := ascii_engine) true blank_page))));
    reflexivity.
Defined.

Lemma submit_never_raises_witness :
  is_hidden (dom (snd (submit (E := ascii_engine) net_down filled_form blank_page))
               "btn-spinner") = true.
Proof.
  apply (proj2 (proj2 (submit_never_raises (E := ascii_engine)
                         net_down filled_form blank_page) eq_refl)).
Defined.

Lemma transport_failure_shown_witness :
  children (dom (snd (submit (E := ascii_engine) net_down filled_form blank_page))
              "error-box")
  = text_children (error_text failed_to_fetch).
Proof.
  apply (proj1 (transport_failure_shown (E := ascii_engine)
                  net_down filled_form blank_page failed_to_fetch
                  eq_refl (or_introl eq_refl))).
Defined.


Lemma null_body_shown_as_error_witness :
  is_hidden (dom (snd (submit (E := ascii_engine) (net_ok VNull) filled_form blank_page))
               "error-box") = false.
Proof.
  apply (proj1 (proj2 (null_body_shown_as_error (E := ascii_engine)
                         (net_ok VNull) filled_form blank_page VNull
                         eq_refl eq_refl eq_refl))).
Defined.

Lemma success_clears_error_witness :
  is_hidden (dom (snd (submit (E := ascii_engine) (net_ok (VObj [])) filled_form blank_page))
               "error-box") = true.
Proof.
  apply (proj1 (proj2 (success_clears_error (E := ascii_engine)
                         (net_ok (VObj [])) filled_form blank_page (VObj [])
                         eq_refl eq_refl (show_response_empty_ok (E := ascii_engine))))).
Defined.

Lemma render_failure_leaves_partial_page_witness :
  is_hidden (dom (snd (submit (E := ascii_engine) (net_ok bad_issues) filled_form blank_page))
               "result-content") = false.
Proof.
  apply (proj1 (proj2 (proj2 (render_failure_leaves_partial_page (E := ascii_engine)
                                (net_ok bad_issues) filled_form blank_page bad_issues
                                eq_refl eq_refl eq_refl eq_refl eq_refl eq_refl
                                eq_refl)))).
Defined.

Lemma overall_score_rendering_witness :
  console (snd (show_response (E := ascii_engine) wrapped_payload blank_page))
  = console blank_page.
Proof.
  apply (proj1 (proj2 (proj2 (overall_score_rendering (E := ascii_engine)
                                wrapped_payload blank_page eq_refl eq_refl)))).
Defined.

Lemma score_bar_capped_witness :
  timers (snd (show_response (E := ascii_engine)
                 (VObj [("overall_score", VNum (Fin 250))]) blank_page))
  = (timers blank_page ++ [(100, "score-bar-fill", "100%")])%list.
Proof.
  apply (score_bar_capped (E := ascii_engine)
           (VObj [("overall_score", VNum (Fin 250))]) blank_page 250
           eq_refl eq_refl eq_refl).
Defined.

Lemma show_issues_raises_iff_witness :
  fst (show_issues (E := ascii_engine) two_issues blank_page) = Ok tt.
Proof.
  apply (proj2 (proj1 (show_issues_raises_iff (E := ascii_engine)
                         two_issues blank_page eq_refl))).
  right. right. exists [VStr "plain"; VObj [("message", VStr "y")]].
  split; reflexivity.
Defined.

Lemma show_checks_lines_witness :
  fst (show_checks (E := ascii_engine) (VObj []) blank_page) = Ok tt.
Proof.
  apply (proj1 (show_checks_lines (E := ascii_engine) (VObj []) blank_page
                  eq_refl eq_refl eq_refl eq_refl)).
Defined.

Lemma show_optimized_texts_witness :
  fst (show_optimized (E := ascii_engine) (VObj []) blank_page) = Ok tt.
Proof.
  apply (proj1 (show_optimized_texts (E := ascii_engine) (VObj []) blank_page
                  eq_refl eq_refl eq_refl)).
Defined.

Lemma show_ctas_items_witness :
  fst (show_ctas (E := ascii_engine)
         (VObj [("improvements", VObj [("cta_variants", VArr [VStr "Buy now"; VNull])])])
         blank_page) = Ok tt.
Proof.
  apply (proj1 (show_ctas_items (E := ascii_engine)
                  (VObj [("improvements", VObj [("cta_variants", VArr [VStr "Buy now"; VNull])])])
                  [VStr "Buy now"; VNull] blank_page eq_refl eq_refl eq_refl)).
Defined.

Lemma renderChips_strings_witness :
  chip_class (E := ascii_engine) true "#SNS Square" = "chip mandatory".
Proof.
  apply (proj1 (proj2 (proj2 (renderChips_strings (E := ascii_engine)
                                "tags-trending" ["#SNS Square"] true blank_page)))).
  reflexivity.
Defined.

Lemma renderChips_stops_at_bad_item_witness :
  fst (renderChips (E := ascii_engine) "tags-final"
         (VArr (map VStr ["#a"] ++ VNum (Fin 5) :: [VStr "#b"])) false blank_page)
  = Throw (TypeError (E := ascii_engine) "toLowerCase").
Proof.
  apply (proj1 (renderChips_stops_at_bad_item (E := ascii_engine)
                  "tags-final" ["#a"] (VNum (Fin 5)) [VStr "#b"] false blank_page
                  eq_refl eq_refl)).
Defined.

Lemma chip_of_object_witness :
  chip (E := ascii_engine) true
    (VObj [("tag", VStr "#ai"); ("competition_level", VStr "High")])
  = Ok (Created "span"
          (chip_class (E := ascii_engine) true "#ai" ++ " competition-"
           ++ toLowerCase (Engine := ascii_engine) "High")
          ("#ai" ++ " " ++ middle_dot ++ " " ++ "High")).
Proof.
  apply (proj1 (proj2 (chip_of_object (E := ascii_engine) true
                         (VObj [("tag", VStr "#ai"); ("competition_level", VStr "High")])
                         eq_refl)));
    reflexivity.
Defined.

Lemma show_hashtags_strings_witness :
  children (dom (snd (show_hashtags (E := ascii_engine) tagged_result blank_page))
              "tags-trending")
  = chips (E := ascii_engine) true ["#b"].
Proof.
  apply (proj2 (proj2 (show_hashtags_strings (E := ascii_engine)
                         tagged_result ["#SNS Square"; "#a"] ["#b"] blank_page
                         eq_refl eq_refl eq_refl eq_refl))).
Defined.

Lemma show_hashtags_default_witness :
  children (dom (snd (show_hashtags (E := ascii_engine) (VObj []) blank_page)) "tags-final")
  = [Markup (muted "span" "None")].
Proof.
  apply (show_hashtags_default (E := ascii_engine) (VObj []) blank_page eq_refl).
  right. left. reflexivity.
Defined.

Lemma primitive_result_renders_defaults_witness :
  show_response (E := ascii_engine) (VObj [("raw_json", VStr "n/a")]) blank_page
  = show_response (E := ascii_engine) (VObj []) blank_page.
Proof.
  apply (primitive_result_renders_defaults (E := ascii_engine)
           (VObj [("raw_json", VStr "n/a")]) blank_page eq_refl eq_refl).
Defined.
